(** * count_console_logs.py: a shallow embedding and its verified properties

    The script scans TypeScript sources for [console.log] lines and decides,
    with a backward brace-counting heuristic, whether each one sits inside an
    [if (... DEBUG_CONFIG ...) {] block.

    Modelling choices.
    - A Python [str] is a [string]; a character is a code point below 256.
    - A Python [int] is a [Z].
    - A Python [list] is a [list]; the subscript [lines[i]] raises
      [IndexError] out of range, which the embedding makes explicit.
    - The dict [all_results['files_with_unguarded']] is a [gmap] keyed by the
      path; the two record-like dicts are records.
    - The file system is a finite map from a path to what [readlines()]
      returns for it; [rglob] is the list of paths it yields. A path that
      is not in the map cannot be read: [open] or [readlines] raises for
      it, whatever the cause (no such file, a directory, no permission,
      bytes that are not UTF-8). The model has one exception for all of
      these and does not tell them apart.
    - Standard output is the list of the strings given to [print]. *)

From Stdlib Require Import ZArith Ascii String.
From stdpp Require Import gmap strings list fin_maps sorting pretty.

Local Open Scope string_scope.
Local Open Scope Z_scope.

(** ** Exceptions *)

(** [IndexError] is what a subscript out of range raises. [ReadError]
    stands for whatever [open(file_path, 'r', encoding='utf-8')] or
    [f.readlines()] raises on a path that cannot be read:
    [ReadError], [IsADirectoryError], [PermissionError],
    [UnicodeDecodeError], ... *)
Inductive exn : Type :=
| IndexError
| ReadError.

Inductive res (A : Type) : Type :=
| Ok (a : A)
| Raise (e : exn).
Arguments Ok {A} a.
Arguments Raise {A} e.

Definition bind {A B : Type} (m : res A) (k : A → res B) : res B :=
  match m with
  | Ok a => k a
  | Raise e => Raise e
  end.

Notation "'try' x ':=' m 'in' k" := (bind m (λ x, k))
  (at level 10, x name, m at level 100, k at level 200, only parsing).

(** ** String primitives of Python used by the script *)

Module Py.

(** [str.isspace] on a single code point below 256. *)
Definition isspace (c : ascii) : bool :=
  let n := N_of_ascii c in
  (((9 <=? n) && (n <=? 13)) || ((28 <=? n) && (n <=? 32))
   || (n =? 133) || (n =? 160))%N.

Fixpoint lstrip (s : string) : string :=
  match s with
  | EmptyString => EmptyString
  | String c s' => if isspace c then lstrip s' else s
  end.

Fixpoint rstrip (s : string) : string :=
  match s with
  | EmptyString => EmptyString
  | String c s' =>
      match rstrip s' with
      | EmptyString => if isspace c then EmptyString else String c EmptyString
      | r => String c r
      end
  end.

(** [s.strip()] *)
Definition strip (s : string) : string := rstrip (lstrip s).

(** [s.count(c)] for a one-character [c]. *)
Fixpoint count (c : ascii) (s : string) : Z :=
  match s with
  | EmptyString => 0
  | String d s' => (if Ascii.eqb c d then 1 else 0) + count c s'
  end.

(** [sub in s] *)
Fixpoint contains (sub s : string) : bool :=
  String.prefix sub s ||
  match s with
  | EmptyString => false
  | String _ s' => contains sub s'
  end.

(** [s[:n]] for [n >= 0] *)
Definition slice_to (n : nat) (s : string) : string := String.substring 0 n s.

(** [str(n)] / the [{n}] of an f-string, for an int. *)
Definition str_of_int (n : Z) : string := pretty n.

End Py.

(** ** is_console_log_behind_debug_config *)

(** Ghost events of one run of the classifier: [Read i] is logged when the
    loop subscripts [lines[i]], [Depth i c] when [brace_count] has been
    updated to [c] with the braces of line [i]. *)
Inductive event : Type :=
| Read (i : nat)
| Depth (i : nat) (brace_count : Z).

Definition is_guard (line : string) : bool :=
  Py.contains "if" line && Py.contains "DEBUG_CONFIG" line.

Definition brace_delta (line : string) : Z :=
  Py.count "}" line - Py.count "{" line.

(** The loop [for i in range(log_line_num - 1, -1, -1)], entered with [n]
    indices left to visit ([i = n - 1] is next) and the current
    [brace_count]. Falling out of the loop, or [break], returns [False]. *)
Fixpoint scan (lines : list string) (log_line_num : Z) (n : nat)
    (brace_count : Z) : list event * res bool :=
  match n with
  | O => ([], Ok false)
  | S i =>
      match lines !! i with
      | None => ([Read i], Raise IndexError)
      | Some raw =>
          let line := Py.strip raw in
          let brace_count := brace_count + brace_delta line in
          if is_guard line && (brace_count <? 0) then
            ([Read i; Depth i brace_count], Ok true)
          else if (brace_count >=? 0) && (Z.of_nat i <? log_line_num - 1) then
            ([Read i; Depth i brace_count], Ok false)
          else
            let rest := scan lines log_line_num i brace_count in
            (Read i :: Depth i brace_count :: rest.1, rest.2)
      end
  end.

Definition classify (lines : list string) (log_line_num : Z)
    : list event * res bool :=
  scan lines log_line_num (Z.to_nat log_line_num) 0.

Definition is_console_log_behind_debug_config (lines : list string)
    (log_line_num : Z) : res bool :=
  (classify lines log_line_num).2.

Definition trace (lines : list string) (log_line_num : Z) : list event :=
  (classify lines log_line_num).1.

(** ** analyze_file *)

(** One entry of [results['not_behind_debug_lines']]. *)
Record Occurrence : Type := {
  line_num : Z;
  line : string
}.

(** The dict [results] of [analyze_file]. *)
Record FileResult : Type := {
  total : Z;
  behind_debug : Z;
  not_behind_debug : Z;
  not_behind_debug_lines : list Occurrence
}.

Definition results_init : FileResult :=
  {| total := 0; behind_debug := 0; not_behind_debug := 0;
     not_behind_debug_lines := [] |}.

(** The loop [for i, line in enumerate(lines)], with [rest] the lines from
    index [i] on and [results] the dict as mutated so far. *)
Fixpoint analyze_loop (lines : list string) (i : nat) (rest : list string)
    (results : FileResult) : res FileResult :=
  match rest with
  | [] => Ok results
  | l :: rest' =>
      if Py.contains "console.log" l then
        let results :=
          {| total := total results + 1;
             behind_debug := behind_debug results;
             not_behind_debug := not_behind_debug results;
             not_behind_debug_lines := not_behind_debug_lines results |} in
        try guarded := is_console_log_behind_debug_config lines (Z.of_nat i) in
        if guarded then
          analyze_loop lines (S i) rest'
            {| total := total results;
               behind_debug := behind_debug results + 1;
               not_behind_debug := not_behind_debug results;
               not_behind_debug_lines := not_behind_debug_lines results |}
        else
          analyze_loop lines (S i) rest'
            {| total := total results;
               behind_debug := behind_debug results;
               not_behind_debug := not_behind_debug results + 1;
               not_behind_debug_lines :=
                 (not_behind_debug_lines results ++
                  [{| line_num := Z.of_nat i + 1; line := Py.strip l |}])%list |}
      else analyze_loop lines (S i) rest' results
  end.

Definition analyze_lines (lines : list string) : res FileResult :=
  analyze_loop lines 0 lines results_init.

(** [open] or [readlines] raises when the path cannot be read, that is,
    when it is not in [fs]. *)
Definition analyze_file (fs : gmap string (list string)) (file_path : string)
    : res FileResult :=
  match fs !! file_path with
  | None => Raise ReadError
  | Some lines => analyze_lines lines
  end.

(** ** main *)

(** The dict [all_results] of [main]. *)
Record RunSummary : Type := {
  all_total : Z;
  all_behind_debug : Z;
  all_not_behind_debug : Z;
  files_with_unguarded : gmap string (list Occurrence)
}.

Definition all_results_init : RunSummary :=
  {| all_total := 0; all_behind_debug := 0; all_not_behind_debug := 0;
     files_with_unguarded := ∅ |}.

(** The body shared by the two [for file_path in src_dir.rglob(...)] loops,
    after [analyze_file] has returned [results]. *)
Definition accumulate (all_results : RunSummary) (file_path : string)
    (results : FileResult) : RunSummary :=
  {| all_total := all_total all_results + total results;
     all_behind_debug := all_behind_debug all_results + behind_debug results;
     all_not_behind_debug :=
       all_not_behind_debug all_results + not_behind_debug results;
     files_with_unguarded :=
       match not_behind_debug_lines results with
       | [] => files_with_unguarded all_results
       | _ :: _ =>
           <[file_path := not_behind_debug_lines results]>
             (files_with_unguarded all_results)
       end |}.

Fixpoint scan_files (fs : gmap string (list string)) (paths : list string)
    (all_results : RunSummary) : res RunSummary :=
  match paths with
  | [] => Ok all_results
  | file_path :: paths' =>
      try results := analyze_file fs file_path in
      scan_files fs paths' (accumulate all_results file_path results)
  end.

(** The two traversals: [ts] is what [rglob('*.ts')] yields, [tsx] what
    [rglob('*.tsx')] yields. *)
Definition run_summary (fs : gmap string (list string)) (ts tsx : list string)
    : res RunSummary :=
  try all_results := scan_files fs ts all_results_init in
  scan_files fs tsx all_results.

(** *** The report *)

Definition nl : string := String "010" EmptyString.

Definition fmt_file (file_path : string) (logs : list Occurrence) : string :=
  nl ++ file_path ++ ": " ++ Py.str_of_int (Z.of_nat (length logs)) ++
  " unguarded console.log statements".

Definition fmt_log (log : Occurrence) : string :=
  "  Line " ++ Py.str_of_int (line_num log) ++ ": " ++
  Py.slice_to 80 (line log) ++ "...".

Definition fmt_more (logs : list Occurrence) : string :=
  "  ... and " ++ Py.str_of_int (Z.of_nat (length logs) - 3) ++ " more".

(** [for log in logs[:3]: print(...)], appending to the output so far. *)
Fixpoint print_logs (shown : list Occurrence) (out : list string)
    : list string :=
  match shown with
  | [] => out
  | log :: shown' => print_logs shown' (out ++ [fmt_log log])%list
  end.

(** [for file_path, logs in sorted(...)]. *)
Fixpoint print_files (items : list (string * list Occurrence))
    (out : list string) : list string :=
  match items with
  | [] => out
  | (file_path, logs) :: items' =>
      let out := (out ++ [fmt_file file_path logs])%list in
      let out := print_logs (take 3 logs) out in
      let out :=
        if Z.of_nat (length logs) >? 3 then (out ++ [fmt_more logs])%list
        else out in
      print_files items' out
  end.

(** Order of [sorted] on the items of a dict: the keys are pairwise
    distinct, so the comparison of two tuples is decided by the paths. *)
Definition item_le (a b : string * list Occurrence) : Prop :=
  String.le a.1 b.1.

#[local] Instance item_le_dec : RelDecision item_le.
Proof. intros a b. unfold item_le. apply _. Defined.

Definition sorted_items (m : gmap string (list Occurrence))
    : list (string * list Occurrence) :=
  merge_sort item_le (map_to_list m).

Definition print_summary (all_results : RunSummary) : list string :=
  [ "Total console.log statements: " ++ Py.str_of_int (all_total all_results);
    "Behind DEBUG_CONFIG: " ++ Py.str_of_int (all_behind_debug all_results);
    "NOT behind DEBUG_CONFIG: " ++
      Py.str_of_int (all_not_behind_debug all_results);
    nl ++ "Files with unguarded console.log statements: " ++
      Py.str_of_int (Z.of_nat (size (files_with_unguarded all_results))) ].

Definition print_details (all_results : RunSummary) (out : list string)
    : list string :=
  print_files (sorted_items (files_with_unguarded all_results)) out.

(** [main]: the final [all_results] and what was printed. *)
Definition main (fs : gmap string (list string)) (ts tsx : list string)
    : res (RunSummary * list string) :=
  try all_results := run_summary fs ts tsx in
  Ok (all_results, print_details all_results (print_summary all_results)).

(** ** Sample files *)

Definition dquote : string := String "034" EmptyString.

(** A guard, the target, the closing brace. *)
Definition scenario_A : list string :=
  [ "if (DEBUG_CONFIG.enabled) {";
    "  console.log(" ++ dquote ++ "x" ++ dquote ++ ");";
    "}" ].

(** The same file as [readlines()] returns it, with line terminators. *)
Definition scenario_A_read : list string :=
  (λ l, l ++ nl) <$> scenario_A.

(** A guard that encloses first an unrelated [if] block and then the
    target. *)
Definition scenario_D : list string :=
  [ "if (DEBUG_CONFIG.enabled) {";
    "  if (x) {";
    "    y();";
    "  }";
    "  console.log(" ++ dquote ++ "z" ++ dquote ++ ");";
    "}" ].

(** The target two plain statements below its guard. *)
Definition two_statements : list string :=
  [ "if (DEBUG_CONFIG.enabled) {";
    "  const a = 1;";
    "  const b = 2;";
    "  console.log(a, b);";
    "}" ].

(** One plain statement between the guard and the target. *)
Definition one_statement : list string :=
  [ "if (DEBUG_CONFIG.enabled) {";
    "  const a = 1;";
    "  console.log(a);";
    "}" ].

(** No conditional keyword on the line above the target: [if] only occurs
    inside [notify]. *)
Definition notify_file : list string :=
  [ "notify(DEBUG_CONFIG, {";
    "  text: console.log(1)";
    "})" ].

(** A small tree: [a.ts] is fully guarded, [b.ts] and [c.tsx] are not, and
    [d.ts] has no target call. *)
Definition sample_fs : gmap string (list string) :=
  <["src/a.ts" := scenario_A_read]>
    (<["src/b.ts" := scenario_D]>
       (<["src/c.tsx" := (scenario_D ++ scenario_D ++ scenario_D ++ scenario_D)%list]>
          (<["src/d.ts" := ["let x = 1;"]]> ∅))).

(** One run over the sample tree, enumerated out of order. *)
Definition sample_ts : list string := ["src/b.ts"; "src/a.ts"; "src/d.ts"].
Definition sample_tsx : list string := ["src/c.tsx"].

Definition sample_summary : RunSummary :=
  match run_summary sample_fs sample_ts sample_tsx with
  | Ok s => s
  | Raise _ => all_results_init
  end.

Definition sample_output : list string :=
  print_details sample_summary (print_summary sample_summary).

(** ** Vocabulary of the statements *)

(** The lines of a file that contain the target call. *)
Definition console_log_lines (lines : list string) : list string :=
  List.filter (Py.contains "console.log") lines.

(** [o] records an unguarded target line of [lines]: its 1-based number,
    its stripped text. *)
Definition records_unguarded (lines : list string) (o : Occurrence) : Prop :=
  ∃ (j : nat) (raw : string),
    lines !! j = Some raw ∧
    Py.contains "console.log" raw = true ∧
    is_console_log_behind_debug_config lines (Z.of_nat j) = Ok false ∧
    line_num o = Z.of_nat j + 1 ∧
    line o = Py.strip raw.

(** What [analyze_file] returns for a path it can read. *)
Definition file_result (fs : gmap string (list string)) (file_path : string)
    : FileResult :=
  match analyze_file fs file_path with
  | Ok r => r
  | Raise _ => results_init
  end.

(** The sum of one counter over the files at [paths]. *)
Definition sum_over (f : FileResult → Z) (fs : gmap string (list string))
    (paths : list string) : Z :=
  foldr (λ p acc, f (file_result fs p) + acc) 0 paths.

(** Every enumerated path can be read. *)
Definition readable (fs : gmap string (list string)) (paths : list string)
    : Prop :=
  Forall (λ p, is_Some (fs !! p)) paths.

(** The report in the words of the specification. The texts are spelled
    out here, with the library's decimal printer [pretty] and the first
    characters taken on the list of characters; none of the printing
    functions of the model is used. *)

(** The first [n] characters of [s]. *)
Definition first_chars (n : nat) (s : string) : string :=
  string_of_list_ascii (take n (list_ascii_of_string s)).

(** The heading of a file: a line feed, the path, the number of its
    unguarded occurrences. *)
Definition spec_heading (file_path : string) (logs : list Occurrence)
    : string :=
  String "010"
    (file_path ++ ": " ++ pretty (Z.of_nat (length logs)) ++
     " unguarded console.log statements").

(** An example: the line number of the occurrence and the first 80
    characters of its text, followed by three dots. *)
Definition spec_example (o : Occurrence) : string :=
  "  Line " ++ pretty (line_num o) ++ ": " ++ first_chars 80 (line o) ++
  "...".

(** The number of occurrences left after the first 3. *)
Definition spec_remaining (logs : list Occurrence) : string :=
  "  ... and " ++ pretty (Z.of_nat (length (drop 3 logs))) ++ " more".

(** The report of one file: a heading, up to 3 examples, and the count of
    the others when there are more than 3. *)
Definition spec_file_block (item : string * list Occurrence) : list string :=
  (spec_heading item.1 item.2 :: (spec_example <$> take 3 item.2)) ++
  (if decide (3 < length item.2)%nat then [spec_remaining item.2] else []).

(** The four lines of totals that open the report. *)
Definition spec_totals (s : RunSummary) : list string :=
  [ "Total console.log statements: " ++ pretty (all_total s);
    "Behind DEBUG_CONFIG: " ++ pretty (all_behind_debug s);
    "NOT behind DEBUG_CONFIG: " ++ pretty (all_not_behind_debug s);
    String "010"
      ("Files with unguarded console.log statements: " ++
       pretty (Z.of_nat (size (files_with_unguarded s)))) ].

(** Closing minus opening braces over the lines [i], ..., [k - 1], counted
    on the lines as they are in the file. *)
Definition depth_from (lines : list string) (k i : nat) : Z :=
  foldr (λ raw acc, brace_delta raw + acc) 0 (drop i (take k lines)).

(** Line [i] has both guard texts and more opening than closing braces
    from there down to the target at [k]. *)
Definition guard_above (lines : list string) (k i : nat) : Prop :=
  ∃ raw, lines !! i = Some raw ∧
         Py.contains "if" raw = true ∧
         Py.contains "DEBUG_CONFIG" raw = true ∧
         depth_from lines k i < 0.

(** The file at [p] has at least one unguarded target call. *)
Definition has_unguarded (fs : gmap string (list string)) (p : string)
    : Prop :=
  not_behind_debug_lines (file_result fs p) ≠ [].

(** The number of occurrences held by the mapping, all files together. *)
Definition listed_occurrences (m : gmap string (list Occurrence)) : Z :=
  foldr (λ item acc, Z.of_nat (length item.2) + acc) 0 (map_to_list m).

(** Line [j] contains the target call and the classifier answers [b] for
    it. *)
Definition classified (lines : list string) (b : bool) (j : nat) : bool :=
  match lines !! j with
  | Some raw =>
      Py.contains "console.log" raw &&
      match is_console_log_behind_debug_config lines (Z.of_nat j) with
      | Ok b' => Bool.eqb b b'
      | Raise _ => false
      end
  | None => false
  end.

(** The number of target lines of the file that the classifier answers
    [b] for. *)
Definition count_classified (lines : list string) (b : bool) : Z :=
  Z.of_nat (length (List.filter (classified lines b) (seq 0 (length lines)))).

(** * Properties *)

(** ** Stripping does not change what the classifier looks for *)

Section strip_facts.

Lemma rstrip_cons_fixed a sub :
  sub ≠ EmptyString → Py.rstrip (String a sub) = String a sub →
  Py.rstrip sub = sub.
Proof.
  intros Hne. simpl. destruct (Py.rstrip sub) eqn:Hr.
  - destruct (Py.isspace a); intros [=]; congruence.
  - intros [=]. done.
Qed.

Lemma rstrip_single_fixed a :
  Py.rstrip (String a EmptyString) = String a EmptyString →
  Py.isspace a = false.
Proof. simpl. by destruct (Py.isspace a). Qed.

Lemma prefix_nil_l s : String.prefix "" s = true.
Proof. by destruct s. Qed.

Lemma prefix_nil_r sub : sub ≠ EmptyString → String.prefix sub "" = false.
Proof. by destruct sub. Qed.

Lemma prefix_rstrip sub s :
  sub ≠ EmptyString → Py.rstrip sub = sub →
  String.prefix sub (Py.rstrip s) = String.prefix sub s.
Proof.
  revert sub. induction s as [|c s IH]; intros sub Hne Hfix; [done|].
  destruct sub as [|a sub]; [done|].
  destruct sub as [|a' sub].
  - apply rstrip_single_fixed in Hfix.
    change (String.prefix (String a "") (String c s))
      with (if ascii_dec a c then String.prefix "" s else false).
    rewrite prefix_nil_l. simpl.
    destruct (Py.rstrip s); simpl.
    + destruct (Py.isspace c) eqn:Hc; simpl;
        destruct (ascii_dec a c); congruence.
    + by destruct (ascii_dec a c).
  - apply rstrip_cons_fixed in Hfix; [|done].
    specialize (IH (String a' sub) ltac:(done) Hfix).
    change (String.prefix (String a (String a' sub)) (String c s))
      with (if ascii_dec a c then String.prefix (String a' sub) s else false).
    rewrite <- IH. simpl Py.rstrip.
    destruct (Py.rstrip s) as [|d r]; simpl.
    + destruct (Py.isspace c); simpl; by destruct (ascii_dec a c).
    + done.
Qed.

Lemma contains_nil_r sub : sub ≠ EmptyString → Py.contains sub "" = false.
Proof. by destruct sub. Qed.

Lemma contains_cons sub c s :
  Py.contains sub (String c s) =
  String.prefix sub (String c s) || Py.contains sub s.
Proof. done. Qed.

Lemma contains_rstrip sub s :
  sub ≠ EmptyString → Py.rstrip sub = sub →
  Py.contains sub (Py.rstrip s) = Py.contains sub s.
Proof.
  intros Hne Hfix. induction s as [|c s IH]; [done|].
  rewrite contains_cons, <- (prefix_rstrip sub (String c s)), <- IH by done.
  simpl Py.rstrip. destruct (Py.rstrip s) as [|d r] eqn:Hr.
  - destruct (Py.isspace c); [|done].
    by rewrite contains_nil_r, prefix_nil_r.
  - done.
Qed.

Lemma contains_lstrip sub s :
  sub ≠ EmptyString → Py.lstrip sub = sub →
  Py.contains sub (Py.lstrip s) = Py.contains sub s.
Proof.
  intros Hne Hfix. induction s as [|c s IH]; [done|].
  destruct sub as [|a sub]; [done|].
  assert (Py.isspace a = false) as Ha.
  { simpl in Hfix. destruct (Py.isspace a) eqn:Ha; [|done].
    exfalso. clear -Hfix.
    assert (∀ t, String.length (Py.lstrip t) ≤ String.length t)%nat as Hlen.
    { induction t as [|x t IHt]; simpl; [lia|].
      destruct (Py.isspace x); simpl; lia. }
    specialize (Hlen sub). rewrite Hfix in Hlen. simpl in Hlen. lia. }
  simpl Py.lstrip. destruct (Py.isspace c) eqn:Hc; [|done].
  rewrite IH, contains_cons. simpl.
  destruct (ascii_dec a c); [congruence|done].
Qed.

(** [sub in line.strip()] is [sub in line] for a non-empty [sub] that
    neither starts nor ends with white space. *)
Lemma contains_strip sub s :
  sub ≠ EmptyString → Py.strip sub = sub →
  Py.contains sub (Py.strip s) = Py.contains sub s.
Proof.
  intros Hne Hfix. unfold Py.strip in *.
  assert (∀ t, String.length (Py.rstrip t) ≤ String.length t)%nat as Hr.
  { induction t as [|x t IHt]; simpl; [lia|].
    destruct (Py.rstrip t); simpl in *; [destruct (Py.isspace x)|];
      simpl; lia. }
  assert (∀ t, String.length (Py.lstrip t) ≤ String.length t)%nat as Hl.
  { induction t as [|x t IHt]; simpl; [lia|].
    destruct (Py.isspace x); simpl; lia. }
  assert (Py.lstrip sub = sub) as Hlfix.
  { destruct sub as [|a sub]; [done|]. simpl in *.
    destruct (Py.isspace a); [|done]. exfalso.
    pose proof (Hr (Py.lstrip sub)) as H1. pose proof (Hl sub) as H2.
    rewrite Hfix in H1. simpl in H1. lia. }
  rewrite Hlfix in Hfix.
  by rewrite contains_rstrip, contains_lstrip.
Qed.

Lemma count_lstrip c s :
  Py.isspace c = false → Py.count c (Py.lstrip s) = Py.count c s.
Proof.
  intros Hc. induction s as [|d s IH]; [done|]. simpl.
  destruct (Py.isspace d) eqn:Hd; [|done].
  destruct (Ascii.eqb_spec c d) as [->|_]; [congruence|]. by rewrite IH.
Qed.

Lemma count_rstrip c s :
  Py.isspace c = false → Py.count c (Py.rstrip s) = Py.count c s.
Proof.
  intros Hc. induction s as [|d s IH]; [done|]. simpl.
  rewrite <- IH. destruct (Py.rstrip s) as [|e r]; [|done].
  destruct (Py.isspace d) eqn:Hd; [|done]. simpl.
  destruct (Ascii.eqb_spec c d) as [->|_]; [congruence|done].
Qed.

(** The braces of [line.strip()] are the braces of [line]. *)
Lemma brace_delta_strip raw : brace_delta (Py.strip raw) = brace_delta raw.
Proof.
  unfold brace_delta, Py.strip. by rewrite !count_rstrip, !count_lstrip.
Qed.

Lemma is_guard_strip raw : is_guard (Py.strip raw) = is_guard raw.
Proof.
  unfold is_guard. by rewrite !contains_strip by done.
Qed.

End strip_facts.

(** ** The backward scan *)

Section scan_facts.

Variable lines : list string.
Variable log_line_num : Z.

Lemma scan_S i c :
  scan lines log_line_num (S i) c =
  match lines !! i with
  | None => ([Read i], Raise IndexError)
  | Some raw =>
      let c' := c + brace_delta (Py.strip raw) in
      if is_guard (Py.strip raw) && (c' <? 0) then
        ([Read i; Depth i c'], Ok true)
      else if (c' >=? 0) && (Z.of_nat i <? log_line_num - 1) then
        ([Read i; Depth i c'], Ok false)
      else
        (Read i :: Depth i c' :: (scan lines log_line_num i c').1,
         (scan lines log_line_num i c').2)
  end.
Proof. done. Qed.

(** The three ways an iteration can end, plus the failed subscript. *)
Ltac scan_cases raw Hraw Hg Hb :=
  rewrite scan_S;
  lazymatch goal with
  | |- context [match lines !! ?j with _ => _ end] =>
      destruct (lines !! j) as [raw|] eqn:Hraw
  end;
  [ cbv zeta;
    lazymatch goal with
    | |- context [if ?g then _ else if ?b then _ else _] =>
        destruct g eqn:Hg; [| destruct b eqn:Hb ]
    end |].

(** Only indices below [n] are subscripted. *)
Lemma scan_reads n c i :
  Read i ∈ (scan lines log_line_num n c).1 → (i < n)%nat.
Proof.
  revert c. induction n as [|n IH]; intros c.
  - simpl. by intros ?%elem_of_nil.
  - scan_cases raw Hraw Hg Hb; simpl;
      rewrite ?elem_of_cons, ?elem_of_nil;
      try (intros [[= ->]|[[=]|H]]; [lia|]);
      try (intros [[= ->]|H]; [lia|]);
      try done.
    apply IH in H. lia.
Qed.

Lemma scan_depths n c i d :
  Depth i d ∈ (scan lines log_line_num n c).1 →
  (i < n)%nat ∧ is_Some (lines !! i).
Proof.
  revert c. induction n as [|n IH]; intros c.
  - simpl. by intros ?%elem_of_nil.
  - scan_cases raw Hraw Hg Hb; simpl;
      rewrite ?elem_of_cons, ?elem_of_nil.
    + intros [[=]|[[= -> ->]|[]]]. split; [lia|by eexists].
    + intros [[=]|[[= -> ->]|[]]]. split; [lia|by eexists].
    + intros [[=]|[[= -> ->]|H]]; [split; [lia|by eexists]|].
      apply IH in H as [? ?]. split; [lia|done].
    + intros [[=]|[]].
Qed.

(** With every index below [n] in range the scan returns a boolean. *)
Lemma scan_returns n c :
  (n ≤ length lines)%nat →
  ∃ b, (scan lines log_line_num n c).2 = Ok b.
Proof.
  revert c. induction n as [|n IH]; intros c Hn; [by exists false|].
  scan_cases raw Hraw Hg Hb; simpl; eauto with lia.
  apply lookup_ge_None in Hraw. lia.
Qed.

(** Rule 5: a non-negative counter on a line other than the one just
    above the target ends the scan with [False]. *)
Lemma scan_stops n c i d :
  Depth i d ∈ (scan lines log_line_num n c).1 →
  Z.of_nat i < log_line_num - 1 → 0 ≤ d →
  (scan lines log_line_num n c).2 = Ok false ∧
  last (scan lines log_line_num n c).1 = Some (Depth i d).
Proof.
  revert c. induction n as [|n IH]; intros c.
  - simpl. by intros ?%elem_of_nil.
  - scan_cases raw Hraw Hg Hb; simpl;
      rewrite ?elem_of_cons, ?elem_of_nil.
    + intros [[=]|[[= -> ->]|[]]] Hi Hd.
      apply andb_true_iff in Hg as [_ Hg]. lia.
    + by intros [[=]|[[= -> ->]|[]]] Hi Hd.
    + intros [[=]|[[= -> ->]|H]] Hi Hd.
      * apply andb_false_iff in Hb as [Hb|Hb]; lia.
      * destruct (IH _ H Hi Hd) as [Hres Hlast]. split; [done|].
        destruct (scan lines log_line_num n _).1 as [|e t]; [done|].
        by rewrite !last_cons_cons.
    + intros [[=]|[]].
Qed.

(** Rule 4: a guard line met with a negative counter ends the scan with
    [True]. *)
Lemma scan_guard n c i d raw :
  Depth i d ∈ (scan lines log_line_num n c).1 →
  lines !! i = Some raw → is_guard raw = true → d < 0 →
  (scan lines log_line_num n c).2 = Ok true ∧
  last (scan lines log_line_num n c).1 = Some (Depth i d).
Proof.
  revert c. induction n as [|n IH]; intros c.
  - simpl. by intros ?%elem_of_nil.
  - scan_cases raw' Hraw Hg Hb; simpl;
      rewrite ?elem_of_cons, ?elem_of_nil.
    + by intros [[=]|[[= -> ->]|[]]] Hi Hgd Hd.
    + intros [[=]|[[= -> ->]|[]]] Hi Hgd Hd.
      apply andb_true_iff in Hb as [Hb _]. lia.
    + intros [[=]|[[= -> ->]|H]] Hi Hgd Hd.
      * rewrite is_guard_strip in Hg. simplify_eq.
        rewrite Hgd in Hg. simpl in Hg. lia.
      * destruct (IH _ H Hi Hgd Hd) as [Hres Hlast]. split; [done|].
        destruct (scan lines log_line_num n _).1 as [|e t]; [done|].
        by rewrite !last_cons_cons.
    + intros [[=]|[]].
Qed.

(** An iteration starts by subscripting [lines]. *)
Lemma scan_first_read n c :
  Read n ∈ (scan lines log_line_num (S n) c).1.
Proof.
  rewrite scan_S. destruct (lines !! n); [|apply list_elem_of_here].
  cbv zeta. repeat case_match; apply list_elem_of_here.
Qed.

(** The counter logged for a line is the counter before it plus what the
    braces of that line contribute. *)
Lemma scan_first_depth n c raw :
  lines !! n = Some raw →
  Depth n (c + brace_delta raw) ∈ (scan lines log_line_num (S n) c).1.
Proof.
  intros Hn. rewrite scan_S, Hn, brace_delta_strip. cbv zeta.
  repeat case_match; apply list_elem_of_further, list_elem_of_here.
Qed.

End scan_facts.

(** The scan reads nothing at or above [n]. *)
Lemma scan_ext l1 l2 k n c :
  (∀ i, (i < n)%nat → l1 !! i = l2 !! i) →
  scan l1 k n c = scan l2 k n c.
Proof.
  revert c. induction n as [|n IH]; intros c Heq; [done|].
  rewrite !scan_S, (Heq n) by lia. destruct (l2 !! n) as [raw|]; [|done].
  cbv zeta. rewrite !IH; [done|]. intros i Hi. apply Heq. lia.
Qed.

(** ** The classifier *)

Lemma classifier_returns lines k :
  0 ≤ k ≤ Z.of_nat (length lines) →
  ∃ b, is_console_log_behind_debug_config lines k = Ok b.
Proof. intros Hk. apply scan_returns. lia. Qed.

Lemma classify_unfold lines k :
  classify lines k = scan lines k (Z.to_nat k) 0.
Proof. done. Qed.

(** C5. Scenario A: in the file made of [if (DEBUG_CONFIG.enabled) {], the
    [console.log] line and [}], the classifier answers [True] for the
    [console.log] line (index 1), after reading only the guard line, which
    it meets with the counter at -1. The answer is the same when the lines
    still carry their terminators, as [readlines()] returns them. *)
Theorem scenario_A_guarded :
  is_console_log_behind_debug_config scenario_A 1 = Ok true ∧
  trace scenario_A 1 = [Read 0%nat; Depth 0 (-1)] ∧
  is_console_log_behind_debug_config scenario_A_read 1 = Ok true.
Proof. by vm_compute. Qed.

(** C1. Scenario D as the code runs it: the closing brace of the unrelated
    block raises the counter to 1 on the line just above the target, the
    next line up ([y();]) is visited with the counter still at 1, and the
    scan breaks there: the outer guard on line 0 is never read and the
    answer is [False]. The same happens with two plain statements between
    the guard and the target. *)
Theorem scenario_D_not_detected :
  classify scenario_D 4 =
    ([Read 3%nat; Depth 3 1; Read 2%nat; Depth 2 1], Ok false) ∧
  classify two_statements 3 =
    ([Read 2%nat; Depth 2 0; Read 1%nat; Depth 1 0], Ok false).
Proof. by vm_compute. Qed.

(** C2. Rule 5. Whenever the scan has processed line [i] and the counter
    is then [d >= 0] (so the guard rule did not fire on it):
    - if [i < log_line_num - 1], that line is the last one visited and the
      function returns [False];
    - if [i = log_line_num - 1], the line just above the target, the scan
      does not stop there: the line above it, when there is one, is read
      as well. *)
Theorem stop_rule (lines : list string) (log_line_num : Z) (i : nat) (d : Z) :
  Depth i d ∈ trace lines log_line_num → 0 ≤ d →
  (Z.of_nat i < log_line_num - 1 →
     is_console_log_behind_debug_config lines log_line_num = Ok false ∧
     last (trace lines log_line_num) = Some (Depth i d)) ∧
  (Z.of_nat i = log_line_num - 1 →
     ∀ j, i = S j → Read j ∈ trace lines log_line_num).
Proof.
  unfold trace, is_console_log_behind_debug_config. rewrite classify_unfold.
  intros Hin Hd. split.
  - intros Hi. by apply scan_stops.
  - intros Hi j ->. replace (Z.to_nat log_line_num) with (S (S j)) in * by lia.
    rewrite scan_S in Hin |- *.
    destruct (lines !! S j) as [raw|] eqn:Hraw.
    + cbv zeta in *.
      destruct (is_guard (Py.strip raw) && _) eqn:Hg.
      { simpl in Hin. apply andb_true_iff in Hg as [_ Hg].
        rewrite !elem_of_cons, elem_of_nil in Hin.
        destruct Hin as [[=]|[[= ->]|[]]]. lia. }
      destruct ((_ >=? 0) && _) eqn:Hb.
      { apply andb_true_iff in Hb as [_ Hb]. apply Z.ltb_lt in Hb. lia. }
      cbn [fst]. do 2 apply list_elem_of_further.
      apply scan_first_read.
    + simpl in Hin. rewrite elem_of_cons, elem_of_nil in Hin.
      by destruct Hin as [[=]|[]].
Qed.

Lemma stop_rule_witness :
  Depth 2 1 ∈ trace scenario_D 4 ∧ 0 ≤ 1 ∧
  ((Z.of_nat 2 < 4 - 1 →
      is_console_log_behind_debug_config scenario_D 4 = Ok false ∧
      last (trace scenario_D 4) = Some (Depth 2 1)) ∧
   (Z.of_nat 2 = 4 - 1 → ∀ j, 2%nat = S j → Read j ∈ trace scenario_D 4)).
Proof.
  assert (Depth 2 1 ∈ trace scenario_D 4) as Hin.
  { vm_compute. do 3 apply list_elem_of_further. apply list_elem_of_here. }
  split; [exact Hin|]. split; [lia|].
  apply (stop_rule scenario_D 4 2 1 Hin). lia.
Defined.

(** The exemption at work: with one plain statement between the guard and
    the target the counter is 0 on the line just above the target, the scan
    goes on and finds the guard. *)
Example stop_rule_exemption :
  classify one_statement 2 =
    ([Read 1%nat; Depth 1 0; Read 0%nat; Depth 0 (-1)], Ok true).
Proof. by vm_compute. Qed.

(** C4. For every list of lines and every [log_line_num] between 0 and the
    number of lines, the classifier returns a boolean (it does not raise)
    and every index it subscripts [lines] with is in range. *)
Theorem classifier_total (lines : list string) (log_line_num : Z) :
  0 ≤ log_line_num ≤ Z.of_nat (length lines) →
  (∃ b, is_console_log_behind_debug_config lines log_line_num = Ok b) ∧
  (∀ i, Read i ∈ trace lines log_line_num → (i < length lines)%nat).
Proof.
  intros Hk. unfold trace, is_console_log_behind_debug_config.
  rewrite classify_unfold. split.
  - by apply classifier_returns.
  - intros i Hi%scan_reads. lia.
Qed.

Lemma classifier_total_witness :
  0 ≤ 4 ≤ Z.of_nat (length scenario_D) ∧
  (∃ b, is_console_log_behind_debug_config scenario_D 4 = Ok b) ∧
  (∀ i, Read i ∈ trace scenario_D 4 → (i < length scenario_D)%nat).
Proof.
  assert (0 ≤ 4 ≤ Z.of_nat (length scenario_D)) as H by (simpl; lia).
  split; [exact H|]. exact (classifier_total scenario_D 4 H).
Defined.

(** Past the end of the list the first subscript raises. *)
Example classifier_out_of_range :
  classify scenario_D 9 = ([Read 8%nat], Raise IndexError).
Proof. by vm_compute. Qed.

(** C9. The answer depends only on the lines strictly before the target:
    two lists of lines that agree at every index below [log_line_num] get
    the same answer (and the same run), whatever the target line and the
    lines after it are. *)
Theorem classifier_prefix_only (l1 l2 : list string) (log_line_num : Z) :
  (∀ i : nat, Z.of_nat i < log_line_num → l1 !! i = l2 !! i) →
  is_console_log_behind_debug_config l1 log_line_num =
    is_console_log_behind_debug_config l2 log_line_num ∧
  trace l1 log_line_num = trace l2 log_line_num.
Proof.
  intros Heq. unfold trace, is_console_log_behind_debug_config.
  rewrite !classify_unfold.
  rewrite (scan_ext l1 l2); [done|]. intros i Hi. apply Heq. lia.
Qed.

Lemma classifier_prefix_only_witness :
  (∀ i : nat, Z.of_nat i < 1 →
     scenario_A !! i = take 1 scenario_D !! i) ∧
  is_console_log_behind_debug_config scenario_A 1 =
    is_console_log_behind_debug_config (take 1 scenario_D) 1 ∧
  trace scenario_A 1 = trace (take 1 scenario_D) 1.
Proof.
  assert (∀ i : nat, Z.of_nat i < 1 →
            scenario_A !! i = take 1 scenario_D !! i) as H.
  { intros [|i] Hi; [reflexivity|lia]. }
  split; [exact H|]. exact (classifier_prefix_only _ _ 1 H).
Defined.

(** C10. Guard recognition is raw substring matching: any line above the
    target that contains the two characters [if] anywhere and the text
    [DEBUG_CONFIG], and that the scan processes with the counter negative
    afterwards, makes the classifier return [True]; no word boundary is
    looked for. *)
Theorem guard_is_substring_match (lines : list string) (log_line_num : Z)
    (i : nat) (d : Z) (raw : string) :
  lines !! i = Some raw →
  Py.contains "if" raw = true → Py.contains "DEBUG_CONFIG" raw = true →
  Depth i d ∈ trace lines log_line_num → d < 0 →
  is_console_log_behind_debug_config lines log_line_num = Ok true.
Proof.
  intros Hraw Hif Hdc Hin Hd.
  unfold trace, is_console_log_behind_debug_config in *.
  rewrite classify_unfold in *.
  refine (proj1 (scan_guard lines log_line_num _ _ i d raw Hin Hraw _ Hd)).
  unfold is_guard. by rewrite Hif, Hdc.
Qed.

Lemma guard_is_substring_match_witness :
  notify_file !! 0%nat = Some "notify(DEBUG_CONFIG, {" ∧
  Py.contains "if" "notify(DEBUG_CONFIG, {" = true ∧
  Py.contains "DEBUG_CONFIG" "notify(DEBUG_CONFIG, {" = true ∧
  Depth 0 (-1) ∈ trace notify_file 1 ∧ -1 < 0 ∧
  is_console_log_behind_debug_config notify_file 1 = Ok true.
Proof.
  assert (Depth 0 (-1) ∈ trace notify_file 1) as Hin.
  { vm_compute. apply list_elem_of_further, list_elem_of_here. }
  do 3 (split; [reflexivity|]). split; [exact Hin|]. split; [reflexivity|].
  exact (guard_is_substring_match notify_file 1 0 (-1) _
           eq_refl eq_refl eq_refl Hin eq_refl).
Defined.

(** ** analyze_file *)

Section analyze_facts.

Variable lines : list string.

Lemma drop_cons_inv i (l : string) rest :
  drop i lines = l :: rest →
  lines !! i = Some l ∧ drop (S i) lines = rest ∧ (i < length lines)%nat.
Proof.
  intros Hd.
  assert (lines !! i = Some l) as Hl.
  { rewrite <- (Nat.add_0_r i), <- lookup_drop, Hd. done. }
  split; [done|]. split.
  - rewrite (drop_S _ _ _ Hl) in Hd. by injection Hd.
  - by apply lookup_lt_Some in Hl.
Qed.

(** What the loop adds to [results] while it walks [rest], the lines from
    index [i] on. *)
Lemma analyze_loop_inv rest i results :
  drop i lines = rest →
  ∃ r new,
    analyze_loop lines i rest results = Ok r ∧
    total r =
      total results + Z.of_nat (length (console_log_lines rest)) ∧
    behind_debug r + not_behind_debug r =
      behind_debug results + not_behind_debug results +
      Z.of_nat (length (console_log_lines rest)) ∧
    not_behind_debug r = not_behind_debug results + Z.of_nat (length new) ∧
    not_behind_debug_lines r = (not_behind_debug_lines results ++ new)%list ∧
    Forall (records_unguarded lines) new.
Proof.
  revert i results. induction rest as [|l rest IH]; intros i results Hd.
  - exists results, []. simpl. rewrite app_nil_r.
    repeat split; try lia. constructor.
  - apply drop_cons_inv in Hd as (Hl & Hd & Hi).
    unfold console_log_lines in *. simpl.
    destruct (Py.contains "console.log" l) eqn:Hc.
    + destruct (classifier_returns lines (Z.of_nat i)) as [b Hb]; [lia|].
      rewrite Hb. simpl. destruct b.
      * edestruct (IH (S i)) as (r & new & Hr & Ht & Hs & Hn & Hls & Hf);
          [exact Hd|]. rewrite Hr.
        exists r, new. simpl in *. repeat split; try done; lia.
      * edestruct (IH (S i)) as (r & new & Hr & Ht & Hs & Hn & Hls & Hf);
          [exact Hd|]. rewrite Hr.
        exists r, ({| line_num := Z.of_nat i + 1; line := Py.strip l |} :: new).
        simpl in *. rewrite <- app_assoc in Hls.
        repeat split; try done; try lia.
        constructor; [|done]. by exists i, l.
    + edestruct (IH (S i)) as (r & new & Hr & Ht & Hs & Hn & Hls & Hf);
          [exact Hd|]. rewrite Hr.
      exists r, new. repeat split; try done; lia.
Qed.

Lemma analyze_lines_inv :
  ∃ r,
    analyze_lines lines = Ok r ∧
    total r = Z.of_nat (length (console_log_lines lines)) ∧
    total r = behind_debug r + not_behind_debug r ∧
    not_behind_debug r = Z.of_nat (length (not_behind_debug_lines r)) ∧
    Forall (records_unguarded lines) (not_behind_debug_lines r).
Proof.
  destruct (analyze_loop_inv lines 0 results_init (drop_0 _))
    as (r & new & Hr & Ht & Hs & Hn & Hls & Hf).
  exists r. simpl in *. subst.
  repeat split; try done; lia.
Qed.

End analyze_facts.

(** C3. For every file that [analyze_file] reads, the result has
    [total = behind_debug + not_behind_debug], and [total] is the number of
    lines of the file that contain [console.log]; a line is one element of
    that count however often the text occurs on it. *)
Theorem analyze_file_counts (fs : gmap string (list string))
    (file_path : string) (lines : list string) :
  fs !! file_path = Some lines →
  ∃ r, analyze_file fs file_path = Ok r ∧
       total r = behind_debug r + not_behind_debug r ∧
       total r = Z.of_nat (length (console_log_lines lines)).
Proof.
  intros Hfs. unfold analyze_file. rewrite Hfs.
  destruct (analyze_lines_inv lines) as (r & Hr & Ht & Hs & _).
  by exists r.
Qed.

Lemma analyze_file_counts_witness :
  sample_fs !! "src/c.tsx" =
    Some (scenario_D ++ scenario_D ++ scenario_D ++ scenario_D)%list ∧
  ∃ r, analyze_file sample_fs "src/c.tsx" = Ok r ∧
       total r = behind_debug r + not_behind_debug r ∧
       total r =
         Z.of_nat (length (console_log_lines
           (scenario_D ++ scenario_D ++ scenario_D ++ scenario_D)%list)).
Proof.
  split; [reflexivity|].
  exact (analyze_file_counts sample_fs "src/c.tsx" _ eq_refl).
Defined.

(** A line with the target text twice is counted once. *)
Example twice_on_a_line :
  analyze_lines ["console.log(1); console.log(2);"] =
    Ok {| total := 1; behind_debug := 0; not_behind_debug := 1;
          not_behind_debug_lines :=
            [{| line_num := 1; line := "console.log(1); console.log(2);" |}] |}.
Proof. by vm_compute. Qed.

(** ** main: the aggregation *)

Section main_facts.

Variable fs : gmap string (list string).

Lemma analyze_file_readable p lines :
  fs !! p = Some lines →
  analyze_file fs p = Ok (file_result fs p) ∧
  not_behind_debug (file_result fs p) =
    Z.of_nat (length (not_behind_debug_lines (file_result fs p))) ∧
  Forall (records_unguarded lines) (not_behind_debug_lines (file_result fs p)).
Proof.
  intros Hp. unfold file_result, analyze_file. rewrite Hp.
  destruct (analyze_lines_inv lines) as (r & -> & _ & _ & Hn & Hf). done.
Qed.

(** [open] is the only thing that can fail. *)
Lemma analyze_file_raises p e :
  analyze_file fs p = Raise e → e = ReadError ∧ fs !! p = None.
Proof.
  unfold analyze_file. destruct (fs !! p) as [lines|] eqn:Hp.
  - destruct (analyze_lines_inv lines) as (r & -> & _). done.
  - by intros [= <-].
Qed.

Lemma scan_files_cons p paths acc :
  scan_files fs (p :: paths) acc =
  bind (analyze_file fs p) (λ r, scan_files fs paths (accumulate acc p r)).
Proof. done. Qed.

Lemma scan_files_app l1 l2 acc :
  scan_files fs (l1 ++ l2) acc =
  bind (scan_files fs l1 acc) (scan_files fs l2).
Proof.
  revert acc. induction l1 as [|p l1 IH]; intros acc; [done|].
  simpl. destruct (analyze_file fs p); simpl; [apply IH|done].
Qed.

(** A run that ends normally has read every path. *)
Lemma scan_files_ok_readable paths acc s :
  scan_files fs paths acc = Ok s → readable fs paths.
Proof.
  revert acc. induction paths as [|p paths IH]; intros acc; [by constructor|].
  rewrite scan_files_cons.
  destruct (analyze_file fs p) as [r|e] eqn:Hp; simpl; [|done].
  intros Hs. constructor; [|by eapply IH].
  unfold analyze_file in Hp. by destruct (fs !! p).
Qed.

Lemma accumulate_lookup acc p r q :
  files_with_unguarded (accumulate acc p r) !! q =
  if decide (q = p ∧ not_behind_debug_lines r ≠ [])
  then Some (not_behind_debug_lines r)
  else files_with_unguarded acc !! q.
Proof.
  unfold accumulate. simpl. destruct (not_behind_debug_lines r) as [|o os].
  - rewrite decide_False; [done|]. by intros [_ ?].
  - destruct (decide (q = p)) as [->|Hne].
    + rewrite lookup_insert_eq, decide_True; done.
    + rewrite lookup_insert_ne, decide_False; [done| by intros [? _] | done].
Qed.

(** The summary after one traversal, in closed form. *)
Lemma scan_files_inv paths acc :
  readable fs paths →
  ∃ s, scan_files fs paths acc = Ok s ∧
    all_total s = all_total acc + sum_over total fs paths ∧
    all_behind_debug s =
      all_behind_debug acc + sum_over behind_debug fs paths ∧
    all_not_behind_debug s =
      all_not_behind_debug acc + sum_over not_behind_debug fs paths ∧
    ∀ q, files_with_unguarded s !! q =
         if decide (q ∈ paths ∧ not_behind_debug_lines (file_result fs q) ≠ [])
         then Some (not_behind_debug_lines (file_result fs q))
         else files_with_unguarded acc !! q.
Proof.
  revert acc. induction paths as [|p paths IH]; intros acc Hr.
  - exists acc. unfold sum_over. cbn [foldr].
    split; [done|]. do 3 (split; [lia|]).
    intros q. rewrite decide_False; [done|]. intros [?%elem_of_nil _]. done.
  - apply Forall_cons in Hr as [[lines Hp] Hr].
    destruct (analyze_file_readable p lines Hp) as (Ha & _).
    rewrite scan_files_cons, Ha. simpl.
    destruct (IH (accumulate acc p (file_result fs p)) Hr)
      as (s & Hs & Ht & Hb & Hn & Hm).
    exists s. unfold sum_over in *. cbn [foldr].
    unfold accumulate in Ht, Hb, Hn. cbn in Ht, Hb, Hn.
    split; [done|]. do 3 (split; [lia|]).
    intros q. rewrite Hm, accumulate_lookup.
    repeat case_decide; try done; set_solver.
Qed.

(** Exchanging two neighbours of the enumeration does not change the
    accumulated summary. *)
Lemma accumulate_swap acc p q :
  accumulate (accumulate acc p (file_result fs p)) q (file_result fs q) =
  accumulate (accumulate acc q (file_result fs q)) p (file_result fs p).
Proof.
  destruct acc as [t b n m]. unfold accumulate. simpl.
  f_equal; try lia.
  destruct (decide (p = q)) as [->|Hne]; [done|].
  destruct (not_behind_debug_lines (file_result fs p)),
    (not_behind_debug_lines (file_result fs q)); try done.
  by rewrite insert_insert_ne.
Qed.

Lemma analyze_file_cases p :
  analyze_file fs p = Ok (file_result fs p) ∨
  analyze_file fs p = Raise ReadError.
Proof.
  destruct (fs !! p) as [lines|] eqn:Hp.
  - left. by destruct (analyze_file_readable p lines Hp).
  - right. unfold analyze_file. by rewrite Hp.
Qed.

Lemma scan_files_Permutation l1 l2 :
  l1 ≡ₚ l2 → ∀ acc, scan_files fs l1 acc = scan_files fs l2 acc.
Proof.
  induction 1 as [|p l1 l2 _ IH|p q l|l1 l2 l3 _ IH1 _ IH2]; intros acc.
  - done.
  - rewrite !scan_files_cons. destruct (analyze_file fs p); simpl; [|done].
    apply IH.
  - destruct (analyze_file_cases p) as [Hp|Hp],
      (analyze_file_cases q) as [Hq|Hq];
      repeat (rewrite scan_files_cons, ?Hp, ?Hq; cbn [bind]); try done.
    by rewrite accumulate_swap.
  - by rewrite IH1.
Qed.

End main_facts.

Lemma run_summary_app fs ts tsx :
  run_summary fs ts tsx = scan_files fs (ts ++ tsx) all_results_init.
Proof. unfold run_summary. by rewrite scan_files_app. Qed.

Lemma init_lookup q : files_with_unguarded all_results_init !! q = None.
Proof. apply lookup_empty. Qed.

Lemma main_unfold fs ts tsx :
  main fs ts tsx =
  bind (run_summary fs ts tsx)
    (λ s, Ok (s, print_details s (print_summary s))).
Proof. done. Qed.

(** C6. When [main] has run over readable files, a path is a key of
    [files_with_unguarded] exactly when it was enumerated and the list of
    unguarded occurrences of its file is not empty, that is, when the
    file's [not_behind_debug] is at least 1; the value stored is that list.
    Every enumerated file, listed or not, is part of the three totals. *)
Theorem unguarded_files_listed (fs : gmap string (list string))
    (ts tsx : list string) :
  readable fs (ts ++ tsx) →
  ∃ s out,
    main fs ts tsx = Ok (s, out) ∧
    (∀ p, p ∈ dom (files_with_unguarded s) ↔
          p ∈ (ts ++ tsx)%list ∧
          not_behind_debug_lines (file_result fs p) ≠ []) ∧
    (∀ p, p ∈ (ts ++ tsx)%list →
          analyze_file fs p = Ok (file_result fs p) ∧
          (not_behind_debug_lines (file_result fs p) ≠ [] ↔
           1 ≤ not_behind_debug (file_result fs p))) ∧
    (∀ p logs, files_with_unguarded s !! p = Some logs →
               logs = not_behind_debug_lines (file_result fs p)) ∧
    all_total s = sum_over total fs (ts ++ tsx) ∧
    all_behind_debug s = sum_over behind_debug fs (ts ++ tsx) ∧
    all_not_behind_debug s = sum_over not_behind_debug fs (ts ++ tsx).
Proof.
  intros Hr.
  destruct (scan_files_inv fs (ts ++ tsx) all_results_init Hr)
    as (s & Hs & Ht & Hb & Hn & Hm).
  exists s, (print_details s (print_summary s)).
  rewrite main_unfold, run_summary_app, Hs. split; [done|].
  split; [|split; [|split]].
  - intros p. rewrite elem_of_dom, Hm. case_decide as Hp.
    + split; [done|]. by eexists.
    + rewrite init_lookup. split; [by intros []|done].
  - intros p Hp. unfold readable in Hr. rewrite Forall_forall in Hr.
    destruct (Hr p Hp) as [lines Hl].
    destruct (analyze_file_readable fs p lines Hl) as (Ha & Hlen & _).
    split; [done|]. rewrite Hlen.
    destruct (not_behind_debug_lines (file_result fs p)); simpl; split;
      (done || lia).
  - intros p logs. rewrite Hm. case_decide; [by intros [= <-]|].
    by rewrite init_lookup.
  - simpl in *. lia.
Qed.

Lemma unguarded_files_listed_witness :
  readable sample_fs (sample_ts ++ sample_tsx) ∧
  ∃ s out,
    main sample_fs sample_ts sample_tsx = Ok (s, out) ∧
    (∀ p, p ∈ dom (files_with_unguarded s) ↔
          p ∈ (sample_ts ++ sample_tsx)%list ∧
          not_behind_debug_lines (file_result sample_fs p) ≠ []) ∧
    (∀ p, p ∈ (sample_ts ++ sample_tsx)%list →
          analyze_file sample_fs p = Ok (file_result sample_fs p) ∧
          (not_behind_debug_lines (file_result sample_fs p) ≠ [] ↔
           1 ≤ not_behind_debug (file_result sample_fs p))) ∧
    (∀ p logs, files_with_unguarded s !! p = Some logs →
               logs = not_behind_debug_lines (file_result sample_fs p)) ∧
    all_total s = sum_over total sample_fs (sample_ts ++ sample_tsx) ∧
    all_behind_debug s =
      sum_over behind_debug sample_fs (sample_ts ++ sample_tsx) ∧
    all_not_behind_debug s =
      sum_over not_behind_debug sample_fs (sample_ts ++ sample_tsx).
Proof.
  assert (readable sample_fs (sample_ts ++ sample_tsx)) as Hr.
  { repeat (constructor; [eexists; vm_compute; reflexivity|]). constructor. }
  split; [exact Hr|].
  exact (unguarded_files_listed sample_fs sample_ts sample_tsx Hr).
Defined.

(** The sample run: the guarded file and the file without a target call
    are counted but not listed. *)
Example sample_run_listed :
  (all_total sample_summary, all_behind_debug sample_summary,
   all_not_behind_debug sample_summary) = (6, 1, 5) ∧
  (map_to_list (files_with_unguarded sample_summary)).*1
    ≡ₚ ["src/b.ts"; "src/c.tsx"].
Proof.
  split; [by vm_compute|].
  vm_compute. first [reflexivity | apply perm_swap].
Qed.

(** C8. A run is a function of the files and their contents: whatever the
    order in which the two traversals yield the same paths, [main] ends
    with the same summary (same totals, same mapping) and prints the same
    report, or fails in both orders on a path that cannot be read. *)
Theorem scan_deterministic (fs : gmap string (list string))
    (ts ts' tsx tsx' : list string) :
  ts ≡ₚ ts' → tsx ≡ₚ tsx' →
  main fs ts tsx = main fs ts' tsx'.
Proof.
  intros Hts Htsx. rewrite !main_unfold. f_equal.
  unfold run_summary.
  rewrite (scan_files_Permutation fs ts ts' Hts).
  destruct (scan_files fs ts' all_results_init); cbn [bind]; [|done].
  by apply scan_files_Permutation.
Qed.

Lemma scan_deterministic_witness :
  sample_ts ≡ₚ ["src/a.ts"; "src/b.ts"; "src/d.ts"] ∧
  sample_tsx ≡ₚ ["src/c.tsx"] ∧
  main sample_fs sample_ts sample_tsx =
    main sample_fs ["src/a.ts"; "src/b.ts"; "src/d.ts"] ["src/c.tsx"].
Proof.
  assert (sample_ts ≡ₚ ["src/a.ts"; "src/b.ts"; "src/d.ts"]) as H1
    by apply perm_swap.
  assert (sample_tsx ≡ₚ ["src/c.tsx"]) as H2 by reflexivity.
  split; [exact H1|]. split; [exact H2|].
  exact (scan_deterministic sample_fs _ _ _ _ H1 H2).
Defined.

(** ** main: the report *)

Section report_facts.

#[local] Instance item_le_trans : Transitive item_le.
Proof. intros a b c. unfold item_le. apply transitivity. Qed.

#[local] Instance item_le_total : Total item_le.
Proof. intros a b. unfold item_le. apply String.le_total. Qed.

Lemma sorted_items_perm m : sorted_items m ≡ₚ map_to_list m.
Proof. apply merge_sort_Permutation. Qed.

Lemma sorted_items_sorted m : StronglySorted String.le (sorted_items m).*1.
Proof.
  apply (StronglySorted_fmap fst item_le); [done|].
  apply StronglySorted_merge_sort; apply _.
Qed.

Lemma sorted_items_NoDup m : NoDup (sorted_items m).*1.
Proof. rewrite sorted_items_perm. apply NoDup_fst_map_to_list. Qed.

Lemma print_logs_app shown out :
  print_logs shown out = (out ++ (fmt_log <$> shown))%list.
Proof.
  revert out. induction shown as [|log shown IH]; intros out; simpl.
  - by rewrite app_nil_r.
  - by rewrite IH, <- app_assoc.
Qed.

Lemma slice_to_first_chars n s : Py.slice_to n s = first_chars n s.
Proof.
  unfold Py.slice_to, first_chars. revert s.
  induction n as [|n IH]; intros [|c s]; simpl; try done.
  by rewrite IH.
Qed.

Lemma fmt_file_spec p logs : fmt_file p logs = spec_heading p logs.
Proof. done. Qed.

Lemma fmt_log_spec o : fmt_log o = spec_example o.
Proof. unfold fmt_log, spec_example. by rewrite slice_to_first_chars. Qed.

Lemma fmt_more_spec logs :
  (3 < length logs)%nat → fmt_more logs = spec_remaining logs.
Proof.
  intros Hlen. unfold fmt_more, spec_remaining, Py.str_of_int.
  rewrite length_drop. do 3 f_equal. lia.
Qed.

Lemma print_summary_spec s : print_summary s = spec_totals s.
Proof. done. Qed.

Lemma print_files_app items out :
  print_files items out = (out ++ concat (spec_file_block <$> items))%list.
Proof.
  revert out. induction items as [|[p logs] items IH]; intros out.
  - simpl. by rewrite app_nil_r.
  - cbn [print_files fmap list_fmap concat]. rewrite IH, print_logs_app.
    unfold spec_file_block. cbn [fst snd].
    rewrite fmt_file_spec, (list_fmap_ext fmt_log spec_example)
      by (intros; apply fmt_log_spec).
    destruct (Z.of_nat (length logs) >? 3) eqn:Hgt; case_decide; try lia;
      rewrite ?fmt_more_spec by done; by rewrite <- ?app_assoc.
Qed.

Lemma slice_to_length n s :
  String.length (Py.slice_to n s) = Nat.min n (String.length s).
Proof.
  unfold Py.slice_to. revert s.
  induction n as [|n IH]; intros [|c s]; simpl; try done.
  by rewrite IH.
Qed.

Lemma slice_to_prefix n s : String.prefix (Py.slice_to n s) s = true.
Proof.
  unfold Py.slice_to. revert s.
  induction n as [|n IH]; intros [|c s]; simpl; try done.
  destruct (ascii_dec c c); [apply IH|done].
Qed.

End report_facts.

(** C7. The report that [main] prints is the four lines of totals
    followed, for each file of [files_with_unguarded] taken in ascending
    lexicographic order of the paths, by a heading, one line for each of
    the first 3 unguarded occurrences (never more than 3) and, when the
    file has more than 3, a line with the number of the others. Each
    example line is [  Line n: text...] with [n] the 1-based number of the
    line in its file, in decimal, and [text] the first 80 characters of the
    stripped line. *)
Theorem report_details (fs : gmap string (list string)) (ts tsx : list string)
    (s : RunSummary) (out : list string) :
  main fs ts tsx = Ok (s, out) →
  ∃ items : list (string * list Occurrence),
    items ≡ₚ map_to_list (files_with_unguarded s) ∧
    StronglySorted String.le items.*1 ∧
    NoDup items.*1 ∧
    out = (spec_totals s ++ concat (spec_file_block <$> items))%list ∧
    Forall (λ item,
      (length (spec_example <$> take 3 item.2) ≤ 3)%nat ∧
      ∃ lines, fs !! item.1 = Some lines ∧
        Forall (λ o,
          records_unguarded lines o ∧
          (String.length (first_chars 80 (line o)) ≤ 80)%nat ∧
          String.prefix (first_chars 80 (line o)) (line o) = true) item.2)
      items.
Proof.
  rewrite main_unfold, run_summary_app.
  destruct (scan_files fs (ts ++ tsx) all_results_init) as [s'|e] eqn:Hs;
    cbn [bind]; [|done].
  intros [= <- <-].
  exists (sorted_items (files_with_unguarded s')).
  split; [apply sorted_items_perm|].
  split; [apply sorted_items_sorted|].
  split; [apply sorted_items_NoDup|].
  split; [rewrite <- (print_summary_spec s') at 1; apply print_files_app|].
  apply Forall_forall. intros [p logs] Hin.
  rewrite sorted_items_perm in Hin. apply elem_of_map_to_list in Hin.
  split; [rewrite length_fmap, length_take; lia|]. cbn [fst snd].
  pose proof (scan_files_ok_readable _ _ _ _ Hs) as Hr.
  destruct (scan_files_inv fs _ all_results_init Hr) as (s2 & Hs2 & _ & _ & _ & Hm).
  rewrite Hs in Hs2. injection Hs2 as <-.
  rewrite Hm in Hin. case_decide as Hp; [|by rewrite init_lookup in Hin].
  injection Hin as <-. destruct Hp as [Hp _].
  unfold readable in Hr. rewrite Forall_forall in Hr.
  destruct (Hr p Hp) as [lines Hl]. exists lines. split; [done|].
  destruct (analyze_file_readable fs p lines Hl) as (_ & _ & Hf).
  eapply Forall_impl; [exact Hf|]. intros o Ho. split; [done|].
  rewrite <- slice_to_first_chars.
  split; [rewrite slice_to_length; lia|apply slice_to_prefix].
Qed.

Lemma report_details_witness :
  main sample_fs sample_ts sample_tsx = Ok (sample_summary, sample_output) ∧
  ∃ items : list (string * list Occurrence),
    items ≡ₚ map_to_list (files_with_unguarded sample_summary) ∧
    StronglySorted String.le items.*1 ∧
    NoDup items.*1 ∧
    sample_output =
      (spec_totals sample_summary ++ concat (spec_file_block <$> items))%list ∧
    Forall (λ item,
      (length (spec_example <$> take 3 item.2) ≤ 3)%nat ∧
      ∃ lines, sample_fs !! item.1 = Some lines ∧
        Forall (λ o,
          records_unguarded lines o ∧
          (String.length (first_chars 80 (line o)) ≤ 80)%nat ∧
          String.prefix (first_chars 80 (line o)) (line o) = true) item.2)
      items.
Proof.
  assert (main sample_fs sample_ts sample_tsx =
            Ok (sample_summary, sample_output)) as H
    by (vm_compute; reflexivity).
  split; [exact H|].
  exact (report_details sample_fs sample_ts sample_tsx _ _ H).
Defined.

(** What the sample run prints: [b.ts] before [c.tsx], three examples and
    a remainder of one for the file with four unguarded calls. *)
Example sample_report :
  sample_output =
    [ "Total console.log statements: 6";
      "Behind DEBUG_CONFIG: 1";
      "NOT behind DEBUG_CONFIG: 5";
      nl ++ "Files with unguarded console.log statements: 2";
      nl ++ "src/b.ts: 1 unguarded console.log statements";
      "  Line 5: console.log(" ++ dquote ++ "z" ++ dquote ++ ");...";
      nl ++ "src/c.tsx: 4 unguarded console.log statements";
      "  Line 5: console.log(" ++ dquote ++ "z" ++ dquote ++ ");...";
      "  Line 11: console.log(" ++ dquote ++ "z" ++ dquote ++ ");...";
      "  Line 17: console.log(" ++ dquote ++ "z" ++ dquote ++ ");...";
      "  ... and 1 more" ].
Proof. by vm_compute. Qed.

(** A long line is cut after 80 characters. *)
Example long_line_cut :
  String.length
    (Py.slice_to 80
       "console.log(aaaaaaaaaaaaaaaaaaaaaaaaaaaaaaaaaaaaaaaaaaaaaaaaaaaaaaaaaaaaaaaaaaaaaaaaaaaaaaaaaaaaaaaaaaaaaaaaaaaaa)")
  = 80%nat.
Proof. by vm_compute. Qed.

(** * Further properties *)

(** ** The classifier in terms of the braces of the file *)

Section depth_facts.

Variable lines : list string.
Variable k : nat.
Hypothesis Hk : (k ≤ length lines)%nat.

Lemma depth_from_end : depth_from lines k k = 0.
Proof.
  unfold depth_from. rewrite drop_ge; [done|]. rewrite length_take. lia.
Qed.

Lemma depth_from_step m raw :
  (m < k)%nat → lines !! m = Some raw →
  depth_from lines k m = brace_delta raw + depth_from lines k (S m).
Proof.
  intros Hm Hraw. unfold depth_from.
  rewrite (drop_S (take k lines) raw m); [done|].
  by rewrite lookup_take_lt.
Qed.

(** The counter with which the loop reaches index [n - 1] is the brace
    balance of the lines already visited, and the loop answers [True]
    exactly when it can walk down to a guard line without meeting the
    stopping rule. *)
Lemma scan_true_iff n :
  (n ≤ k)%nat →
  (scan lines (Z.of_nat k) n (depth_from lines k n)).2 = Ok true ↔
  ∃ i, (i < n)%nat ∧ guard_above lines k i ∧
       ∀ j, (i < j)%nat → (j < n)%nat → (S j < k)%nat →
            depth_from lines k j < 0.
Proof.
  induction n as [|m IH]; intros Hn.
  - simpl. split; [done|]. intros (i & Hi & _). lia.
  - destruct (lookup_lt_is_Some_2 lines m) as [raw Hraw]; [lia|].
    rewrite scan_S, Hraw. cbv zeta.
    rewrite brace_delta_strip, is_guard_strip, Z.add_comm.
    rewrite <- (depth_from_step m raw) by (done || lia).
    assert (guard_above lines k m ↔
            is_guard raw = true ∧ depth_from lines k m < 0) as Hguard.
    { unfold guard_above, is_guard. rewrite andb_true_iff. split.
      - intros (raw' & Hraw' & ? & ? & ?). by simplify_eq.
      - intros [[? ?] ?]. by exists raw. }
    destruct (is_guard raw && (depth_from lines k m <? 0)) eqn:Hg.
    { apply andb_true_iff in Hg as [Hg Hd%Z.ltb_lt]. split; [|done].
      intros _. exists m. split; [lia|]. split; [by apply Hguard|].
      intros j ? ?. lia. }
    assert (¬ guard_above lines k m) as Hng.
    { rewrite Hguard. intros [Hg1 Hg2%Z.ltb_lt]. by rewrite Hg1, Hg2 in Hg. }
    destruct ((depth_from lines k m >=? 0) && (Z.of_nat m <? Z.of_nat k - 1))
      eqn:Hb.
    { apply andb_true_iff in Hb as [Hb1%Z.geb_le Hb2%Z.ltb_lt].
      split; [done|]. intros (i & Hi & Hgi & Hj). exfalso.
      destruct (decide (i = m)) as [->|Hne].
      - destruct Hgi as (? & ? & ? & ? & ?). lia.
      - specialize (Hj m). lia. }
    cbn [snd]. rewrite IH by lia. split.
    + intros (i & Hi & Hgi & Hj). exists i. split; [lia|]. split; [done|].
      intros j Hij Hjm Hjk. destruct (decide (j = m)) as [->|Hne].
      * apply andb_false_iff in Hb as [Hb|Hb].
        -- rewrite Z.geb_leb in Hb. apply Z.leb_gt in Hb. lia.
        -- apply Z.ltb_ge in Hb. lia.
      * apply Hj; lia.
    + intros (i & Hi & Hgi & Hj). destruct (decide (i = m)) as [->|Hne].
      * done.
      * exists i. split; [lia|]. split; [done|].
        intros j ? ? ?. apply Hj; lia.
Qed.

End depth_facts.

Lemma classify_true_depth (lines : list string) (k : nat) :
  (k ≤ length lines)%nat →
  is_console_log_behind_debug_config lines (Z.of_nat k) = Ok true ↔
  ∃ i, (i < k)%nat ∧ guard_above lines k i ∧
       ∀ j, (i < j)%nat → (S j < k)%nat → depth_from lines k j < 0.
Proof.
  intros Hk. unfold is_console_log_behind_debug_config.
  rewrite classify_unfold, Nat2Z.id.
  rewrite <- (depth_from_end lines k Hk) at 1.
  rewrite (scan_true_iff lines k Hk k) by lia.
  split; intros (i & Hi & Hg & Hj); exists i; (split; [done|]);
    (split; [done|]); intros j ? ?; apply Hj; lia.
Qed.

(** X1. For a target index within the file, the classifier answers [True]
    exactly when some line [i] above the target contains [if] and
    [DEBUG_CONFIG], has more opening than closing braces on the lines
    [i .. log_line_num - 1], and every line strictly between it and the
    line just above the target also has a negative balance down to the
    target. Braces are those of the lines as they are in the file. *)
Theorem classifier_true_iff (lines : list string) (k : nat) :
  (k ≤ length lines)%nat →
  is_console_log_behind_debug_config lines (Z.of_nat k) = Ok true ↔
  ∃ i, (i < k)%nat ∧ guard_above lines k i ∧
       ∀ j, (i < j)%nat → (S j < k)%nat → depth_from lines k j < 0.
Proof.
  intros Hk. unfold is_console_log_behind_debug_config.
  rewrite classify_unfold, Nat2Z.id.
  rewrite <- (depth_from_end lines k Hk) at 1.
  rewrite (scan_true_iff lines k Hk k) by lia.
  split; intros (i & Hi & Hg & Hj); exists i; (split; [done|]);
    (split; [done|]); intros j ? ?; apply Hj; lia.
Qed.

Lemma classifier_true_iff_witness :
  (2 ≤ length one_statement)%nat ∧
  (is_console_log_behind_debug_config one_statement (Z.of_nat 2) = Ok true ↔
   ∃ i, (i < 2)%nat ∧ guard_above one_statement 2 i ∧
        ∀ j, (i < j)%nat → (S j < 2)%nat → depth_from one_statement 2 j < 0).
Proof.
  assert (2 ≤ length one_statement)%nat as H by (simpl; lia).
  split; [exact H|]. exact (classifier_true_iff one_statement 2 H).
Defined.

(** ** The classifier outside the file *)

(** X2. For a target index of 0 or below the loop body never runs: the
    classifier answers [False] without reading any line, whatever the
    lines are. A target call on the first line of a file is therefore
    never guarded. *)
Theorem classifier_at_start (lines : list string) (log_line_num : Z) :
  log_line_num ≤ 0 →
  classify lines log_line_num = ([], Ok false).
Proof.
  intros Hk. rewrite classify_unfold.
  by replace (Z.to_nat log_line_num) with 0%nat by lia.
Qed.

Lemma classifier_at_start_witness :
  0 ≤ 0 ∧ classify scenario_D 0 = ([], Ok false).
Proof.
  assert (0 ≤ 0) as H by lia.
  split; [exact H|]. exact (classifier_at_start scenario_D 0 H).
Defined.

(** X3. For a target index beyond the number of lines the very first
    subscript, [lines[log_line_num - 1]], is out of range: the classifier
    raises [IndexError] and reads nothing else. The bound
    [log_line_num <= len(lines)] of the totality statement is the largest
    possible. *)
Theorem classifier_past_end (lines : list string) (log_line_num : Z) :
  Z.of_nat (length lines) < log_line_num →
  classify lines log_line_num =
    ([Read (Z.to_nat (log_line_num - 1))], Raise IndexError).
Proof.
  intros Hk. rewrite classify_unfold.
  replace (Z.to_nat log_line_num) with (S (Z.to_nat (log_line_num - 1)))
    by lia.
  rewrite scan_S, (lookup_ge_None_2 lines); [done|lia].
Qed.

Lemma classifier_past_end_witness :
  Z.of_nat (length scenario_D) < 7 ∧
  classify scenario_D 7 = ([Read (Z.to_nat (7 - 1))], Raise IndexError).
Proof.
  assert (Z.of_nat (length scenario_D) < 7) as H by (simpl; lia).
  split; [exact H|]. exact (classifier_past_end scenario_D 7 H).
Defined.

(** ** White space around the lines *)

Lemma scan_strip_ext l1 l2 k n c :
  Py.strip <$> l1 = Py.strip <$> l2 → scan l1 k n c = scan l2 k n c.
Proof.
  intros Heq. revert c. induction n as [|n IH]; intros c; [done|].
  assert (Py.strip <$> (l1 !! n) = Py.strip <$> (l2 !! n)) as Hn
    by (by rewrite <- !list_lookup_fmap, Heq).
  rewrite !scan_S.
  destruct (l1 !! n) as [a|], (l2 !! n) as [b|]; simplify_eq/=; [|done].
  rewrite Hn. by rewrite !IH.
Qed.

Lemma analyze_loop_strip_ext l1 l2 rest1 rest2 i results :
  Py.strip <$> l1 = Py.strip <$> l2 →
  Py.strip <$> rest1 = Py.strip <$> rest2 →
  analyze_loop l1 i rest1 results = analyze_loop l2 i rest2 results.
Proof.
  intros Hl. revert rest2 i results.
  induction rest1 as [|a rest1 IH]; intros [|b rest2] i results Hrest;
    simplify_eq/=; [done|].
  assert (Py.contains "console.log" a = Py.contains "console.log" b) as ->.
  { rewrite <- (contains_strip "console.log" a), <- (contains_strip "console.log" b)
      by done. by f_equal. }
  unfold is_console_log_behind_debug_config. rewrite !classify_unfold.
  rewrite (scan_strip_ext l1 l2) by done.
  replace (Py.strip a) with (Py.strip b) by done.
  destruct (Py.contains "console.log" b); [|by apply IH].
  destruct (scan l2 _ _ _).2 as [[|]|]; simpl; [by apply IH..|done].
Qed.

(** X4. Leading and trailing white space of the lines, line terminators
    included, has no effect: two files whose lines are equal once stripped
    get the same answer from the classifier at every index, with the same
    run, and the same result from [analyze_file]'s loop. *)
Theorem whitespace_irrelevant (l1 l2 : list string) :
  Py.strip <$> l1 = Py.strip <$> l2 →
  (∀ log_line_num, classify l1 log_line_num = classify l2 log_line_num) ∧
  analyze_lines l1 = analyze_lines l2.
Proof.
  intros Heq. split.
  - intros k. rewrite !classify_unfold. by apply scan_strip_ext.
  - by apply analyze_loop_strip_ext.
Qed.

Lemma whitespace_irrelevant_witness :
  Py.strip <$> scenario_A = Py.strip <$> scenario_A_read ∧
  (∀ log_line_num,
     classify scenario_A log_line_num =
     classify scenario_A_read log_line_num) ∧
  analyze_lines scenario_A = analyze_lines scenario_A_read.
Proof.
  assert (Py.strip <$> scenario_A = Py.strip <$> scenario_A_read) as H
    by (vm_compute; reflexivity).
  split; [exact H|]. exact (whitespace_irrelevant _ _ H).
Defined.

(** ** What analyze_file lists *)

Section listing_facts.

Variable lines : list string.

Lemma analyze_loop_listing rest i results :
  drop i lines = rest →
  ∃ r new,
    analyze_loop lines i rest results = Ok r ∧
    not_behind_debug_lines r = (not_behind_debug_lines results ++ new)%list ∧
    Forall (λ o, Z.of_nat i < line_num o ≤ Z.of_nat (length lines)) new ∧
    StronglySorted (λ a b, line_num a < line_num b) new ∧
    ∀ j raw, (i ≤ j)%nat → lines !! j = Some raw →
      Py.contains "console.log" raw = true →
      is_console_log_behind_debug_config lines (Z.of_nat j) = Ok false →
      {| line_num := Z.of_nat j + 1; line := Py.strip raw |} ∈ new.
Proof.
  revert i results. induction rest as [|l rest IH]; intros i results Hd.
  - exists results, []. rewrite app_nil_r.
    split; [done|]. split; [done|]. split; [constructor|].
    split; [constructor|]. intros j raw Hj Hraw.
    apply lookup_lt_Some in Hraw.
    assert (length (drop i lines) = 0%nat) as Hlen by (by rewrite Hd).
    rewrite length_drop in Hlen. lia.
  - apply drop_cons_inv in Hd as (Hl & Hd & Hi).
    cbn [analyze_loop].
    assert (∀ (new : list Occurrence),
      Forall (λ o, Z.of_nat (S i) < line_num o ≤ Z.of_nat (length lines)) new →
      Forall (λ o, Z.of_nat i < line_num o ≤ Z.of_nat (length lines)) new)
      as Hweak.
    { intros new H. eapply Forall_impl; [exact H|]. intros o. simpl. lia. }
    destruct (Py.contains "console.log" l) eqn:Hc.
    + destruct (classifier_returns lines (Z.of_nat i)) as [b Hb]; [lia|].
      rewrite Hb. cbn [bind]. destruct b.
      * edestruct (IH (S i)) as (r & new & Hr & Hls & Hbd & Hso & Hall);
          [exact Hd|]. rewrite Hr. exists r, new.
        split; [done|]. split; [done|]. split; [by apply Hweak|].
        split; [done|]. intros j raw Hj Hraw Hcr Hcl.
        destruct (decide (j = i)) as [->|Hne]; [congruence|].
        apply (Hall j raw); (done || lia).
      * edestruct (IH (S i)) as (r & new & Hr & Hls & Hbd & Hso & Hall);
          [exact Hd|]. rewrite Hr.
        exists r, ({| line_num := Z.of_nat i + 1; line := Py.strip l |} :: new).
        split; [done|]. cbn in Hls. rewrite <- app_assoc in Hls.
        split; [done|]. split.
        { constructor; [simpl; lia|by apply Hweak]. }
        split.
        { constructor; [done|]. eapply Forall_impl; [exact Hbd|].
          intros o. simpl. lia. }
        intros j raw Hj Hraw Hcr Hcl.
        destruct (decide (j = i)) as [->|Hne].
        -- simplify_eq. apply list_elem_of_here.
        -- apply list_elem_of_further, (Hall j raw); (done || lia).
    + edestruct (IH (S i)) as (r & new & Hr & Hls & Hbd & Hso & Hall);
        [exact Hd|]. rewrite Hr. exists r, new.
      split; [done|]. split; [done|]. split; [by apply Hweak|].
      split; [done|]. intros j raw Hj Hraw Hcr Hcl.
      destruct (decide (j = i)) as [->|Hne]; [congruence|].
      apply (Hall j raw); (done || lia).
Qed.

(** A loop over lines without the target text leaves [results] as it is. *)
Lemma analyze_loop_no_target rest i results :
  Forall (λ l, Py.contains "console.log" l = false) rest →
  analyze_loop lines i rest results = Ok results.
Proof.
  intros Hno. revert i. induction Hno as [|l rest Hl _ IH]; intros i; [done|].
  cbn [analyze_loop]. rewrite Hl. apply IH.
Qed.

End listing_facts.

(** X5. [not_behind_debug_lines] of a file is exactly its unguarded
    target lines, in file order: every entry records a line that contains
    [console.log] and that the classifier answered [False] for, with its
    1-based number and its stripped text (which still contains
    [console.log]); every such line has its entry; and the line numbers are
    strictly increasing and lie between 1 and the number of lines. *)
Theorem analyze_file_listing (fs : gmap string (list string))
    (file_path : string) (lines : list string) :
  fs !! file_path = Some lines →
  ∃ r, analyze_file fs file_path = Ok r ∧
    Forall (λ o, records_unguarded lines o ∧
                 Py.contains "console.log" (line o) = true ∧
                 1 ≤ line_num o ≤ Z.of_nat (length lines))
      (not_behind_debug_lines r) ∧
    (∀ j raw, lines !! j = Some raw →
       Py.contains "console.log" raw = true →
       is_console_log_behind_debug_config lines (Z.of_nat j) = Ok false →
       {| line_num := Z.of_nat j + 1; line := Py.strip raw |}
         ∈ not_behind_debug_lines r) ∧
    StronglySorted (λ a b, line_num a < line_num b) (not_behind_debug_lines r).
Proof.
  intros Hfs. unfold analyze_file. rewrite Hfs. unfold analyze_lines.
  destruct (analyze_loop_listing lines lines 0 results_init (drop_0 _))
    as (r & new & Hr & Hls & Hbd & Hso & Hall).
  destruct (analyze_lines_inv lines) as (r' & Hr' & _ & _ & _ & Hrec).
  unfold analyze_lines in Hr'. rewrite Hr in Hr'. injection Hr' as <-.
  cbn in Hls. subst new. exists r. split; [done|]. split; [|split; [|done]].
  - apply Forall_forall. intros o Ho.
    rewrite Forall_forall in Hrec, Hbd.
    specialize (Hrec o Ho). specialize (Hbd o Ho).
    split; [done|]. split; [|lia].
    destruct Hrec as (j & raw & _ & Hc & _ & _ & ->).
    by rewrite contains_strip.
  - intros j raw Hraw Hc Hcl. apply (Hall j raw); (done || lia).
Qed.

Lemma analyze_file_listing_witness :
  sample_fs !! "src/b.ts" = Some scenario_D ∧
  ∃ r, analyze_file sample_fs "src/b.ts" = Ok r ∧
    Forall (λ o, records_unguarded scenario_D o ∧
                 Py.contains "console.log" (line o) = true ∧
                 1 ≤ line_num o ≤ Z.of_nat (length scenario_D))
      (not_behind_debug_lines r) ∧
    (∀ j raw, scenario_D !! j = Some raw →
       Py.contains "console.log" raw = true →
       is_console_log_behind_debug_config scenario_D (Z.of_nat j) = Ok false →
       {| line_num := Z.of_nat j + 1; line := Py.strip raw |}
         ∈ not_behind_debug_lines r) ∧
    StronglySorted (λ a b, line_num a < line_num b) (not_behind_debug_lines r).
Proof.
  split; [reflexivity|].
  exact (analyze_file_listing sample_fs "src/b.ts" scenario_D eq_refl).
Defined.

(** X6. A file none of whose lines contains [console.log], the empty file
    among them, gives all counters 0 and no occurrence. *)
Theorem no_target_no_occurrence (lines : list string) :
  Forall (λ l, Py.contains "console.log" l = false) lines →
  analyze_lines lines = Ok results_init.
Proof.
  intros Hno. unfold analyze_lines. generalize 0%nat. generalize lines at 1.
  intros all i. revert i.
  induction Hno as [|l rest Hl _ IH]; intros i; [done|].
  cbn [analyze_loop]. rewrite Hl. apply IH.
Qed.

Lemma no_target_no_occurrence_witness :
  Forall (λ l, Py.contains "console.log" l = false) ["let x = 1;"; "}"] ∧
  analyze_lines ["let x = 1;"; "}"] = Ok results_init.
Proof.
  assert (Forall (λ l, Py.contains "console.log" l = false)
            ["let x = 1;"; "}"]) as H
    by (repeat constructor).
  split; [exact H|]. exact (no_target_no_occurrence _ H).
Defined.

(** X7. [analyze_file] fails exactly when the file cannot be read, that
    is, when [open] or [readlines] raises; once the lines are read the loop
    never raises: the [IndexError] of the classifier cannot escape from
    [analyze_file], because the classifier is only called with indices of
    the file. *)
Theorem analyze_file_fails_iff (fs : gmap string (list string))
    (file_path : string) :
  ((∃ e, analyze_file fs file_path = Raise e) ↔ fs !! file_path = None) ∧
  analyze_file fs file_path ≠ Raise IndexError.
Proof.
  split; [split|].
  - intros [e [_ Hp]%analyze_file_raises]. done.
  - intros Hp. exists ReadError. unfold analyze_file. by rewrite Hp.
  - by intros [[=] _]%analyze_file_raises.
Qed.

(** ** main: failure, totals and the enumeration *)

Section run_facts.

Variable fs : gmap string (list string).


Lemma sum_over_split paths :
  readable fs paths →
  sum_over total fs paths =
    sum_over behind_debug fs paths + sum_over not_behind_debug fs paths.
Proof.
  unfold sum_over. induction 1 as [|p paths [lines Hp] _ IH]; [done|].
  cbn [foldr]. rewrite IH.
  unfold file_result at 1 4 6. unfold analyze_file. rewrite Hp.
  destruct (analyze_lines_inv lines) as (r & -> & _ & Hs & _). lia.
Qed.

Lemma sum_Permutation {A} (g : A → Z) (l1 l2 : list A) :
  l1 ≡ₚ l2 →
  foldr (λ x acc, g x + acc) 0 l1 = foldr (λ x acc, g x + acc) 0 l2.
Proof. induction 1; simpl; lia. Qed.

(** With every path enumerated once, the items of the mapping are the
    enumerated files that have unguarded calls, each with its list. *)
Lemma listed_items paths (m : gmap string (list Occurrence)) :
  NoDup paths →
  (∀ q, m !! q =
        if decide (q ∈ paths ∧ not_behind_debug_lines (file_result fs q) ≠ [])
        then Some (not_behind_debug_lines (file_result fs q))
        else None) →
  map_to_list m ≡ₚ
    (λ p, (p, not_behind_debug_lines (file_result fs p))) <$>
      filter (has_unguarded fs) paths.
Proof.
  intros Hnd Hm. apply NoDup_Permutation.
  - apply NoDup_map_to_list.
  - apply NoDup_fmap_2; [by intros p q [= ->]|]. by apply NoDup_filter.
  - intros [p logs]. rewrite elem_of_map_to_list, Hm, list_elem_of_fmap.
    split.
    + case_decide as Hp; [|done]. intros [= <-]. exists p.
      split; [done|]. apply list_elem_of_filter. by destruct Hp.
    + intros (q & [= -> ->] & Hq). apply list_elem_of_filter in Hq as [Hq1 Hq2].
      by rewrite decide_True.
Qed.

Lemma sum_listed paths :
  readable fs paths →
  foldr (λ item acc, Z.of_nat (length item.2) + acc) 0
    ((λ p, (p, not_behind_debug_lines (file_result fs p))) <$>
       filter (has_unguarded fs) paths)
  = sum_over not_behind_debug fs paths.
Proof.
  unfold sum_over. induction 1 as [|p paths [lines Hp] _ IH]; [done|].
  destruct (analyze_file_readable fs p lines Hp) as (_ & Hlen & _).
  rewrite filter_cons. cbn [foldr]. rewrite Hlen, <- IH.
  case_decide as Hu; [done|].
  unfold has_unguarded in Hu.
  destruct (not_behind_debug_lines (file_result fs p)); [simpl; lia|].
  by destruct Hu.
Qed.

End run_facts.


(** One unreadable path among readable ones aborts the run. *)
Example main_aborts :
  main sample_fs ["src/a.ts"; "src/gone.ts"; "src/b.ts"] sample_tsx =
    Raise ReadError.
Proof. by vm_compute. Qed.

(** X9. In every summary that [main] ends with, the grand total is the
    sum of the two other grand totals:
    [total = behind_debug + not_behind_debug]. *)
Theorem grand_totals_add_up (fs : gmap string (list string))
    (ts tsx : list string) (s : RunSummary) (out : list string) :
  main fs ts tsx = Ok (s, out) →
  all_total s = all_behind_debug s + all_not_behind_debug s.
Proof.
  rewrite main_unfold, run_summary_app.
  destruct (scan_files fs (ts ++ tsx) all_results_init) as [s'|e] eqn:Hs;
    cbn [bind]; [|done].
  intros [= <- _].
  pose proof (scan_files_ok_readable _ _ _ _ Hs) as Hr.
  destruct (scan_files_inv fs _ all_results_init Hr)
    as (s2 & Hs2 & Ht & Hb & Hn & _).
  rewrite Hs in Hs2. injection Hs2 as <-.
  rewrite Ht, Hb, Hn, (sum_over_split fs _ Hr). simpl. lia.
Qed.

Lemma grand_totals_add_up_witness :
  main sample_fs sample_ts sample_tsx = Ok (sample_summary, sample_output) ∧
  all_total sample_summary =
    all_behind_debug sample_summary + all_not_behind_debug sample_summary.
Proof.
  assert (main sample_fs sample_ts sample_tsx =
            Ok (sample_summary, sample_output)) as H
    by (vm_compute; reflexivity).
  split; [exact H|].
  exact (grand_totals_add_up sample_fs sample_ts sample_tsx _ _ H).
Defined.

(** X10. When no path is enumerated twice, the report is consistent with
    the mapping: the grand total of unguarded calls is the number of
    occurrences held by [files_with_unguarded], and the number of keys,
    which the report prints as the number of files with unguarded calls,
    is the number of enumerated files that have one. *)
Theorem summary_matches_listing (fs : gmap string (list string))
    (ts tsx : list string) (s : RunSummary) (out : list string) :
  NoDup (ts ++ tsx)%list →
  main fs ts tsx = Ok (s, out) →
  all_not_behind_debug s = listed_occurrences (files_with_unguarded s) ∧
  size (files_with_unguarded s) =
    length (filter (has_unguarded fs) (ts ++ tsx)%list).
Proof.
  intros Hnd. rewrite main_unfold, run_summary_app.
  destruct (scan_files fs (ts ++ tsx) all_results_init) as [s'|e] eqn:Hs;
    cbn [bind]; [|done].
  intros [= <- _].
  pose proof (scan_files_ok_readable _ _ _ _ Hs) as Hr.
  destruct (scan_files_inv fs _ all_results_init Hr)
    as (s2 & Hs2 & _ & _ & Hn & Hm).
  rewrite Hs in Hs2. injection Hs2 as <-.
  assert (map_to_list (files_with_unguarded s') ≡ₚ
            (λ p, (p, not_behind_debug_lines (file_result fs p))) <$>
              filter (has_unguarded fs) (ts ++ tsx)%list) as Hperm.
  { apply listed_items; [done|]. intros q. rewrite Hm.
    case_decide; [done|apply init_lookup]. }
  split.
  - unfold listed_occurrences.
    rewrite (sum_Permutation _ _ _ Hperm), sum_listed by done.
    rewrite Hn. simpl. lia.
  - rewrite <- length_map_to_list, Hperm. by rewrite length_fmap.
Qed.

Lemma summary_matches_listing_witness :
  NoDup (sample_ts ++ sample_tsx)%list ∧
  main sample_fs sample_ts sample_tsx = Ok (sample_summary, sample_output) ∧
  all_not_behind_debug sample_summary =
    listed_occurrences (files_with_unguarded sample_summary) ∧
  size (files_with_unguarded sample_summary) =
    length (filter (has_unguarded sample_fs) (sample_ts ++ sample_tsx)%list).
Proof.
  assert (NoDup (sample_ts ++ sample_tsx)%list) as Hnd.
  { apply (bool_decide_unpack _). vm_compute. exact I. }
  assert (main sample_fs sample_ts sample_tsx =
            Ok (sample_summary, sample_output)) as H
    by (vm_compute; reflexivity).
  split; [exact Hnd|]. split; [exact H|].
  exact (summary_matches_listing sample_fs sample_ts sample_tsx _ _ Hnd H).
Defined.

(** A path enumerated twice is counted twice in the totals and listed
    once: the precondition above is needed. *)
Example enumerated_twice :
  ∃ s out, main sample_fs ["src/b.ts"; "src/b.ts"] [] = Ok (s, out) ∧
    all_not_behind_debug s = 2 ∧
    listed_occurrences (files_with_unguarded s) = 1.
Proof. eexists _, _. split; [reflexivity|]. by vm_compute. Qed.

(** X11. The run depends only on which paths are enumerated, not on which
    of the two traversals yields a path nor in which order. For two runs
    whose enumerations, the two traversals taken together, are the same up
    to order: if one ends with a summary and a report, the other ends with
    the same summary and the same report; if one fails, so does the
    other. *)
Theorem enumeration_split_irrelevant (fs : gmap string (list string))
    (ts tsx ts' tsx' : list string) :
  (ts ++ tsx)%list ≡ₚ (ts' ++ tsx')%list →
  (∀ s out, main fs ts tsx = Ok (s, out) → main fs ts' tsx' = Ok (s, out)) ∧
  (∀ e, main fs ts tsx = Raise e → ∃ e', main fs ts' tsx' = Raise e').
Proof.
  intros Hp. rewrite !main_unfold, !run_summary_app.
  rewrite (scan_files_Permutation fs _ _ Hp). split; [done|].
  intros e He. by exists e.
Qed.

Lemma enumeration_split_irrelevant_witness :
  (sample_ts ++ sample_tsx)%list ≡ₚ
    ([] ++ ["src/c.tsx"; "src/b.ts"; "src/a.ts"; "src/d.ts"])%list ∧
  (∀ s out,
     main sample_fs sample_ts sample_tsx = Ok (s, out) →
     main sample_fs [] ["src/c.tsx"; "src/b.ts"; "src/a.ts"; "src/d.ts"]
       = Ok (s, out)) ∧
  (∀ e, main sample_fs sample_ts sample_tsx = Raise e →
        ∃ e', main sample_fs []
                ["src/c.tsx"; "src/b.ts"; "src/a.ts"; "src/d.ts"] = Raise e').
Proof.
  assert ((sample_ts ++ sample_tsx)%list ≡ₚ
            ([] ++ ["src/c.tsx"; "src/b.ts"; "src/a.ts"; "src/d.ts"])%list)
    as H.
  { change (["src/b.ts"; "src/a.ts"; "src/d.ts"] ++ ["src/c.tsx"] ≡ₚ
              "src/c.tsx" :: ["src/b.ts"; "src/a.ts"; "src/d.ts"])%list.
    symmetry. apply Permutation_cons_append. }
  split; [exact H|].
  exact (enumeration_split_irrelevant sample_fs _ _ _ _ H).
Defined.

(** ** How far the classifier looks, and what the counters count *)

(** X12. The classifier does not look past a line that leaves the balance
    non-negative: if the line two above the target has, together with the
    line above the target, at least as many closing as opening braces, and
    the line just above the target is not itself a guard line that opens
    a block, the answer is [False] whatever the lines further up are. *)
Theorem classifier_short_reach (lines : list string) (k : nat) :
  (S (S k) ≤ length lines)%nat →
  0 ≤ depth_from lines (S (S k)) k →
  ¬ guard_above lines (S (S k)) (S k) →
  is_console_log_behind_debug_config lines (Z.of_nat (S (S k))) = Ok false.
Proof.
  intros Hlen Hd Hng.
  destruct (classifier_returns lines (Z.of_nat (S (S k)))) as [[|] Hb];
    [lia| |done].
  exfalso. apply classify_true_depth in Hb as (i & Hi & Hg & Hj); [|done].
  destruct (decide (i = S k)) as [->|Hne1]; [done|].
  destruct (decide (i = k)) as [->|Hne2].
  - destruct Hg as (? & _ & _ & _ & ?). lia.
  - specialize (Hj k). lia.
Qed.

Lemma classifier_short_reach_witness :
  (S (S 1) ≤ length two_statements)%nat ∧
  0 ≤ depth_from two_statements (S (S 1)) 1 ∧
  ¬ guard_above two_statements (S (S 1)) (S 1) ∧
  is_console_log_behind_debug_config two_statements (Z.of_nat (S (S 1)))
    = Ok false.
Proof.
  assert (S (S 1) ≤ length two_statements)%nat as H1 by (simpl; lia).
  assert (0 ≤ depth_from two_statements (S (S 1)) 1) as H2
    by (vm_compute; discriminate).
  assert (¬ guard_above two_statements (S (S 1)) (S 1)) as H3.
  { intros (raw & Hraw & Hif & _). vm_compute in Hraw.
    injection Hraw as <-. vm_compute in Hif. discriminate. }
  split; [exact H1|]. split; [exact H2|]. split; [exact H3|].
  exact (classifier_short_reach two_statements 1 H1 H2 H3).
Defined.

Section count_facts.

Variable lines : list string.

Lemma classified_at i l b :
  lines !! i = Some l →
  Py.contains "console.log" l = true →
  is_console_log_behind_debug_config lines (Z.of_nat i) = Ok b →
  classified lines b i = true ∧ classified lines (negb b) i = false.
Proof.
  intros Hl Hc Hb. unfold classified. rewrite Hl, Hc, Hb. by destruct b.
Qed.

Lemma classified_no_target i l b :
  lines !! i = Some l →
  Py.contains "console.log" l = false →
  classified lines b i = false.
Proof. intros Hl Hc. unfold classified. by rewrite Hl, Hc. Qed.

Lemma analyze_loop_counts rest i results :
  drop i lines = rest →
  ∃ r,
    analyze_loop lines i rest results = Ok r ∧
    behind_debug r =
      behind_debug results +
      Z.of_nat (length (List.filter (classified lines true)
                          (seq i (length rest)))) ∧
    not_behind_debug r =
      not_behind_debug results +
      Z.of_nat (length (List.filter (classified lines false)
                          (seq i (length rest)))).
Proof.
  revert i results. induction rest as [|l rest IH]; intros i results Hd.
  - exists results. simpl. split; [done|]. lia.
  - apply drop_cons_inv in Hd as (Hl & Hd & Hi).
    cbn [analyze_loop length seq List.filter].
    destruct (Py.contains "console.log" l) eqn:Hc.
    + destruct (classifier_returns lines (Z.of_nat i)) as [b Hb]; [lia|].
      rewrite Hb. cbn [bind].
      destruct (classified_at i l b Hl Hc Hb) as [Hyes Hno].
      destruct b; cbn [negb] in Hno; rewrite Hyes, Hno;
        edestruct (IH (S i)) as (r & Hr & Hbd & Hnb); [exact Hd| |exact Hd|];
        rewrite Hr; exists r; cbn in Hbd, Hnb |- *;
        (split; [done|]); lia.
    + rewrite !(classified_no_target i l) by done.
      edestruct (IH (S i)) as (r & Hr & Hbd & Hnb); [exact Hd|].
      rewrite Hr. by exists r.
Qed.

End count_facts.

(** X13. The two counters of a file count what their names say:
    [behind_debug] is the number of lines that contain [console.log] and
    that the classifier answers [True] for, [not_behind_debug] the number
    of those it answers [False] for, which is also the length of
    [not_behind_debug_lines]. *)
Theorem counters_count_classified (fs : gmap string (list string))
    (file_path : string) (lines : list string) :
  fs !! file_path = Some lines →
  ∃ r, analyze_file fs file_path = Ok r ∧
    behind_debug r = count_classified lines true ∧
    not_behind_debug r = count_classified lines false ∧
    not_behind_debug r = Z.of_nat (length (not_behind_debug_lines r)).
Proof.
  intros Hfs. unfold analyze_file. rewrite Hfs. unfold analyze_lines.
  destruct (analyze_loop_counts lines lines 0 results_init (drop_0 _))
    as (r & Hr & Hbd & Hnb).
  destruct (analyze_lines_inv lines) as (r' & Hr' & _ & _ & Hlen & _).
  unfold analyze_lines in Hr'. rewrite Hr in Hr'. injection Hr' as <-.
  exists r. unfold count_classified. simpl in Hbd, Hnb.
  split; [done|]. split; [lia|]. split; [lia|done].
Qed.

Lemma counters_count_classified_witness :
  sample_fs !! "src/a.ts" = Some scenario_A_read ∧
  ∃ r, analyze_file sample_fs "src/a.ts" = Ok r ∧
    behind_debug r = count_classified scenario_A_read true ∧
    not_behind_debug r = count_classified scenario_A_read false ∧
    not_behind_debug r = Z.of_nat (length (not_behind_debug_lines r)).
Proof.
  split; [reflexivity|].
  exact (counters_count_classified sample_fs "src/a.ts" _ eq_refl).
Defined.
